(** * postgrest-py, [postgrest/_async/request_builder.py]

A shallow embedding of the asynchronous request builders and of their
[execute] methods, and the properties of the response classification,
of the zero-row recovery of the maybe-single executor, of the header
aliasing of [single()] / [maybe_single()] and of the five entry
operations of the request builder.

Python objects that the module mutates in place (the header maps) live
in a store and are held by reference.  Every call of the transport is
recorded in the world, so that "how many requests were sent, and with
what" is a property of the final world.  Exceptions are values of an
error monad over that world: a raised exception keeps the effects that
happened before it. *)

From Stdlib Require Import ZArith QArith String Ascii List Bool Lia.
From stdpp Require Import base option list gmap strings.

Set Warnings "-register-all".

Local Open Scope Z_scope.
Local Open Scope string_scope.
Local Open Scope list_scope.

(** ** JSON values, as [json.loads] / [Response.json()] hands them over *)

Inductive JSON : Type :=
| JNull
| JBool (b : bool)
| JNum (q : Q)
| JStr (s : string)
| JArr (items : list JSON)
| JObj (entries : list (string * JSON)).

(** [d.get(key)]: the value stored under [key], [None] (JSON null) when the
    key is missing.  The entries of a parsed object keep their order. *)
Fixpoint dict_get (key : string) (entries : list (string * JSON)) : JSON :=
  match entries with
  | [] => JNull
  | (k, v) :: rest => if String.eqb k key then v else dict_get key rest
  end.

Definition is_object (v : JSON) : bool :=
  match v with JObj _ => true | _ => false end.

(** ** Exceptions *)

Module APIError.

(** Modelled from the spec: the class [APIError] of [postgrest/exceptions.py]
    is not part of the sources at hand.  The spec describes it as the record
    {message, code, hint, details}, each field free-form and taken verbatim
    from the error JSON. *)
Record t : Type := mk {
  message : JSON;
  code : JSON;
  hint : JSON;
  details : JSON
}.

(** Modelled from the spec: the constructor [APIError(error)], which is not
    part of the sources at hand.  Each field is read from the key of its
    name in the payload; a field the payload does not have is null, and so
    are all four when the payload is not an object ("whatever was
    parseable"). *)
Definition init (error : JSON) : t :=
  match error with
  | JObj entries =>
      {| message := dict_get "message" entries;
         code := dict_get "code" entries;
         hint := dict_get "hint" entries;
         details := dict_get "details" entries |}
  | _ => {| message := JNull; code := JNull; hint := JNull; details := JNull |}
  end.

End APIError.

(** A raised exception.  [cause] is the [__cause__] that [raise ... from e]
    sets.  [ValidationError] is pydantic's; everything else that may travel
    through this module (a body that is not JSON, a transport failure, a
    [TypeError]) is an [OtherError] with the name of its class. *)
Inductive exception : Type :=
| ExcAPIError (err : APIError.t) (cause : option exception)
| ExcValidationError (errors : string)
| ExcOtherError (class_name : string).

Inductive result (A : Type) : Type :=
| Ok (value : A)
| Raise (exc : exception).

Arguments Ok {A} value.
Arguments Raise {A} exc.

Definition is_APIError (exc : exception) : bool :=
  match exc with ExcAPIError _ _ => true | _ => false end.

Definition raised {A} (r : result A) : bool :=
  match r with Ok _ => false | Raise _ => true end.

(** ** The fragment of Python's data model that the module relies on *)

Module Py.

(** Truth value of a value ([bool(v)]): [None], [False], zero and the empty
    string, list and dict are false. *)
Definition truthy (v : JSON) : bool :=
  match v with
  | JNull => false
  | JBool b => b
  | JNum q => negb (Qeq_bool q 0)
  | JStr s => negb (String.eqb s "")
  | JArr items => match items with [] => false | _ => true end
  | JObj entries => match entries with [] => false | _ => true end
  end.

Fixpoint startswith (s sub : string) {struct sub} : bool :=
  match sub, s with
  | EmptyString, _ => true
  | String a sub', String b s' => Ascii.eqb a b && startswith s' sub'
  | String _ _, EmptyString => false
  end.

(** [sub in s] on two strings: [sub] occurs in [s] as a contiguous run. *)
Fixpoint str_contains (sub s : string) : bool :=
  startswith s sub ||
  match s with
  | EmptyString => false
  | String _ s' => str_contains sub s'
  end.

Definition is_str (needle : string) (v : JSON) : bool :=
  match v with JStr t => String.eqb t needle | _ => false end.

(** [needle in container] with a string on the left.  A string is searched
    for the substring, a list for an equal element, a dict for the key; the
    other values are not containers and the test raises [TypeError]. *)
Definition contains (needle : string) (container : JSON) : result bool :=
  match container with
  | JStr s => Ok (str_contains needle s)
  | JArr items => Ok (existsb (is_str needle) items)
  | JObj entries => Ok (existsb (λ kv, String.eqb (fst kv) needle) entries)
  | JNull | JBool _ | JNum _ => Raise (ExcOtherError "TypeError")
  end.

(** Truth value of [v and needle in v]: the right operand is evaluated only
    when [v] is true. *)
Definition and_contains (v : JSON) (needle : string) : result bool :=
  if truthy v then contains needle v else Ok false.

End Py.

(** ** The world: the store of header maps and the requests sent so far *)

(** [httpx.Headers], the mutable header map: a multi-dict that compares
    names without regard to case.  The object keeps its entries in a list,
    in insertion order, each with the name as it was given; the lower-case
    form of a name, which the library stores beside it, is computed here
    where it is needed. *)
Abbreviation Headers := (list (string * string)).

Module httpx.

(** [bytes.lower()]: the ASCII capitals become small letters. *)
Definition lower_byte (a : ascii) : ascii :=
  let n := nat_of_ascii a in
  if (65 <=? n)%nat && (n <=? 90)%nat then ascii_of_nat (n + 32) else a.

Fixpoint lower (s : string) : string :=
  match s with
  | EmptyString => EmptyString
  | String a s' => String (lower_byte a) (lower s')
  end.

(** [item_key == lookup_key], on one entry of the list. *)
Definition item_key_is (lookup_key : string) (item : string * string) : bool :=
  String.eqb (lower (fst item)) lookup_key.

(** The indexes, counted from [idx], of the entries whose name is
    [lookup_key]. *)
Fixpoint found_from (idx : nat) (lookup_key : string) (l : Headers) : list nat :=
  match l with
  | [] => []
  | item :: rest =>
      if item_key_is lookup_key item
      then idx :: found_from (S idx) lookup_key rest
      else found_from (S idx) lookup_key rest
  end.

(** [Headers.__setitem__(key, value)]: every entry of that name but the
    first is deleted, from the back of the list; the first is overwritten
    where it stands; when there is none the new entry goes to the end. *)
Definition Headers_setitem (key value : string) (l : Headers) : Headers :=
  let lookup_key := lower key in
  let found_indexes := found_from 0 lookup_key l in
  let l := foldl (λ acc idx, delete idx acc) l (reverse (tail found_indexes)) in
  match found_indexes with
  | idx :: _ => <[idx := (key, value)]> l
  | [] => l ++ [(key, value)]
  end.

(** [Headers.__getitem__(key)]: the values of the entries of that name,
    joined by a comma and a space; [None] stands for [KeyError]. *)
Definition Headers_getitem (key : string) (l : Headers) : option string :=
  let normalized_key := lower key in
  match map snd (List.filter (item_key_is normalized_key) l) with
  | [] => None
  | items => Some (String.concat ", " items)
  end.

End httpx.

(** [httpx.QueryParams], an ordered multi-map. *)
Abbreviation QueryParams := (list (string * string)).

(** A reference to a header map in the store. *)
Abbreviation loc := nat.

(** One call of [session.request(method, path, json=, params=, headers=)]:
    the client it went to, the arguments, and the content that the header
    map had when the call was made. *)
Record Call : Type := {
  call_session : nat;
  call_method : string;
  call_path : string;
  call_json : JSON;
  call_params : QueryParams;
  call_headers : Headers
}.

Record World : Type := {
  store : gmap loc Headers;
  sent : list Call
}.

(** Content of the header map behind a reference. *)
Definition deref (w : World) (l : loc) : Headers := default [] (store w !! l).

(** The response object of the transport: [r.status_code] and [r.json()],
    which raises when the body is not JSON. *)
Module Response.
Record t : Type := mk {
  status_code : Z;
  json : result JSON
}.
End Response.

(** The transport collaborator ([AsyncClient]): an object with one
    operation, [request].  What it answers may depend on the call and on
    everything that was sent before; it may also raise. *)
Record AsyncClient : Type := {
  client_id : nat;
  respond : list Call → Call → result Response.t
}.

(** ** Computations: state and exceptions *)

Definition M (A : Type) : Type := World → result A * World.

#[global] Instance M_ret : MRet M := λ A a w, (Ok a, w).

#[global] Instance M_bind : MBind M := λ A B f m w,
  match m w with
  | (Ok a, w') => f a w'
  | (Raise e, w') => (Raise e, w')
  end.

Definition raise {A} (e : exception) : M A := λ w, (Raise e, w).

(** A pure step that may raise. *)
Definition lift {A} (r : result A) : M A := λ w, (r, w).

(** [try: body / except ValidationError as e: handler e] *)
Definition try_except_ValidationError {A} (body : M A) (handler : exception → M A) : M A :=
  λ w, match body w with
       | (Raise (ExcValidationError errors), w') => handler (ExcValidationError errors) w'
       | other => other
       end.

(** [try: body / except APIError as e: handler e]; the handler receives the
    caught exception's fields. *)
Definition try_except_APIError {A} (body : M A) (handler : APIError.t → M A) : M A :=
  λ w, match body w with
       | (Raise (ExcAPIError err _), w') => handler err w'
       | other => other
       end.

(** [await session.request(method, path, json=json, params=params,
    headers=headers)]: the call is appended to the record of the world and
    the client answers it. *)
Definition request (session : AsyncClient) (method path : string) (json : JSON)
    (params : QueryParams) (headers : loc) : M Response.t :=
  λ w, let c := {| call_session := client_id session; call_method := method;
                   call_path := path; call_json := json; call_params := params;
                   call_headers := deref w headers |} in
       (respond session (sent w) c, {| store := store w; sent := sent w ++ [c] |}).

(** [headers[key] = value], on the object behind the reference. *)
Definition setitem (headers : loc) (key value : string) : M unit :=
  λ w, (Ok (), {| store := alter (httpx.Headers_setitem key value) headers (store w);
                  sent := sent w |}).

(** ** Result objects *)

Definition parse_count (v : JSON) : option (option Z) :=
  match v with
  | JNull => Some None
  | JNum q => if Pos.eqb (Qden q) 1 then Some (Some (Qnum q)) else None
  | _ => None
  end.

Module APIResponse.

Record t : Type := mk {
  data : list JSON;
  count : option Z
}.

(** Modelled from the spec: [APIResponse.from_http_request_response] of
    [postgrest/base_request_builder.py] is not part of the sources at hand.
    By the spec the body must be a JSON array, each element a row object,
    or a JSON object that wraps the rows together with a count; any other
    body is a parse failure (pydantic's [ValidationError]).  A body that is
    not JSON makes [r.json()] raise. *)
Definition from_http_request_response (r : Response.t) : result t :=
  match Response.json r with
  | Raise e => Raise e
  | Ok (JArr rows) =>
      if forallb is_object rows then Ok {| data := rows; count := None |}
      else Raise (ExcValidationError "data: value is not a valid dict")
  | Ok (JObj entries) =>
      match dict_get "data" entries, parse_count (dict_get "count" entries) with
      | JArr rows, Some c =>
          if forallb is_object rows then Ok {| data := rows; count := c |}
          else Raise (ExcValidationError "data: value is not a valid dict")
      | _, _ => Raise (ExcValidationError "data: value is not a valid list")
      end
  | Ok _ => Raise (ExcValidationError "data: value is not a valid list")
  end.

End APIResponse.

Module SingleAPIResponse.

Record t : Type := mk {
  data : JSON;
  error : JSON;
  count : option Z
}.

(** Modelled from the spec: [SingleAPIResponse.from_http_request_response]
    is not part of the sources at hand.  By the spec the body is parsed as
    exactly one row object, not an array; anything else is a parse
    failure. *)
Definition from_http_request_response (r : Response.t) : result t :=
  match Response.json r with
  | Raise e => Raise e
  | Ok (JObj entries) => Ok {| data := JObj entries; error := JNull; count := None |}
  | Ok _ => Raise (ExcValidationError "data: value is not a valid dict")
  end.

(** Modelled from the spec: [SingleAPIResponse.from_dict] is not part of
    the sources at hand.  By the spec the dict
    {"data": None, "error": None, "count": 0} becomes the response with
    data = null, error = null, count = 0: each field is read from its
    key. *)
Definition from_dict (d : JSON) : result t :=
  match d with
  | JObj entries =>
      match parse_count (dict_get "count" entries) with
      | Some c => Ok {| data := dict_get "data" entries;
                        error := dict_get "error" entries; count := c |}
      | None => Raise (ExcValidationError "count: value is not a valid integer")
      end
  | _ => Raise (ExcValidationError "value is not a valid dict")
  end.

End SingleAPIResponse.

(** ** The builder classes *)

Inductive PyClass : Type :=
| cls_AsyncQueryRequestBuilder
| cls_AsyncSingleRequestBuilder
| cls_AsyncMaybeSingleRequestBuilder
| cls_AsyncFilterRequestBuilder
| cls_AsyncSelectRequestBuilder
| cls_BaseFilterRequestBuilder
| cls_BaseSelectRequestBuilder.

#[global] Instance PyClass_eq_dec : EqDecision PyClass.
Proof. solve_decision. Defined.

(** Modelled from the spec: the two mixins come from
    [postgrest/base_request_builder.py], which is not part of the sources at
    hand.  The spec gives both the filter builder and the select builder the
    filter capability, so the select mixin extends the filter mixin. *)
Definition mixin_bases (c : PyClass) : list PyClass :=
  match c with
  | cls_BaseSelectRequestBuilder => [cls_BaseFilterRequestBuilder]
  | _ => []
  end.

(** The bases in the [class] statements of the module. *)
Definition bases (c : PyClass) : list PyClass :=
  match c with
  | cls_AsyncQueryRequestBuilder => []
  | cls_AsyncSingleRequestBuilder => []
  | cls_AsyncMaybeSingleRequestBuilder => [cls_AsyncSingleRequestBuilder]
  | cls_AsyncFilterRequestBuilder =>
      [cls_BaseFilterRequestBuilder; cls_AsyncQueryRequestBuilder]
  | cls_AsyncSelectRequestBuilder =>
      [cls_BaseSelectRequestBuilder; cls_AsyncQueryRequestBuilder]
  | cls_BaseFilterRequestBuilder | cls_BaseSelectRequestBuilder => mixin_bases c
  end.

(** [issubclass(c, d)]; the hierarchy is three levels deep. *)
Fixpoint issubclass_upto (depth : nat) (c d : PyClass) : bool :=
  bool_decide (c = d) ||
  match depth with
  | O => false
  | S depth' => existsb (λ b, issubclass_upto depth' b d) (bases c)
  end.

Definition issubclass (c d : PyClass) : bool := issubclass_upto 3 c d.

(** The six attributes that every [__init__] of the module stores, and the
    class of the object.  [headers] is a reference: the object is shared,
    not copied. *)
Record Builder : Type := {
  cls : PyClass;
  session : AsyncClient;
  path : string;
  http_method : string;
  headers : loc;
  params : QueryParams;
  json : JSON
}.

Definition in_2xx (status_code : Z) : bool := bool_decide (200 ≤ status_code ≤ 299)%Z.

Module AsyncQueryRequestBuilder.

Definition init (session : AsyncClient) (path http_method : string)
    (headers : loc) (params : QueryParams) (json : JSON) : Builder :=
  {| cls := cls_AsyncQueryRequestBuilder; session := session; path := path;
     http_method := http_method; headers := headers; params := params;
     json := json |}.

Section execute.
(** [APIResponse.from_http_request_response] *)
Variable from_http_request_response : Response.t → result APIResponse.t.

Definition execute (self : Builder) : M APIResponse.t :=
  r ← request (session self) (http_method self) (path self) (json self)
        (params self) (headers self);
  try_except_ValidationError
    (if in_2xx (Response.status_code r)
     then lift (from_http_request_response r)
     else body ← lift (Response.json r);
          raise (ExcAPIError (APIError.init body) None))
    (λ e, body ← lift (Response.json r);
          raise (ExcAPIError (APIError.init body) (Some e))).
End execute.

End AsyncQueryRequestBuilder.

Module AsyncSingleRequestBuilder.

Definition init (session : AsyncClient) (path http_method : string)
    (headers : loc) (params : QueryParams) (json : JSON) : Builder :=
  {| cls := cls_AsyncSingleRequestBuilder; session := session; path := path;
     http_method := http_method; headers := headers; params := params;
     json := json |}.

Section execute.
(** [SingleAPIResponse.from_http_request_response] *)
Variable from_http_request_response : Response.t → result SingleAPIResponse.t.

Definition execute (self : Builder) : M SingleAPIResponse.t :=
  r ← request (session self) (http_method self) (path self) (json self)
        (params self) (headers self);
  try_except_ValidationError
    (if in_2xx (Response.status_code r)
     then lift (from_http_request_response r)
     else body ← lift (Response.json r);
          raise (ExcAPIError (APIError.init body) None))
    (λ e, body ← lift (Response.json r);
          raise (ExcAPIError (APIError.init body) (Some e))).
End execute.

End AsyncSingleRequestBuilder.

Module AsyncMaybeSingleRequestBuilder.

(** The class has no [__init__] of its own: it inherits the one of
    [AsyncSingleRequestBuilder]. *)
Definition init (session : AsyncClient) (path http_method : string)
    (headers : loc) (params : QueryParams) (json : JSON) : Builder :=
  {| cls := cls_AsyncMaybeSingleRequestBuilder; session := session; path := path;
     http_method := http_method; headers := headers; params := params;
     json := json |}.

(** Where control is after the [try] statement: the function has returned
    from inside the handler, or it goes on with the current value of the
    local [r] ([None] when nothing was assigned). *)
Inductive after_try : Type :=
| Returned (value : SingleAPIResponse.t)
| Goes_on (r : option SingleAPIResponse.t).

Definition zero_rows_dict : JSON :=
  JObj [("data", JNull); ("error", JNull); ("count", JNum 0)].

Definition missing_response : APIError.t :=
  APIError.init
    (JObj [("message", JStr "Missing response");
           ("code", JStr "204");
           ("hint", JStr "Please check traceback of the code");
           ("details", JStr "Postgrest couldn't retrieve response, please check traceback of the code. Please create an issue in `supabase-community/postgrest-py` if needed.")]).

Section execute.
(** [SingleAPIResponse.from_http_request_response], [SingleAPIResponse.from_dict]
    and the truth value of a response object ([bool(r)]). *)
Variable from_http_request_response : Response.t → result SingleAPIResponse.t.
Variable from_dict : JSON → result SingleAPIResponse.t.
Variable truthy : SingleAPIResponse.t → bool.

Definition execute (self : Builder) : M SingleAPIResponse.t :=
  t ← try_except_APIError
        (r ← AsyncSingleRequestBuilder.execute from_http_request_response self;
         mret (Goes_on (Some r)))
        (λ e, zero_rows ← lift (Py.and_contains (APIError.details e)
                                   "Results contain 0 rows");
              if zero_rows : bool
              then v ← lift (from_dict zero_rows_dict); mret (Returned v)
              else mret (Goes_on None));
  match t with
  | Returned v => mret v
  | Goes_on None => raise (ExcAPIError missing_response None)
  | Goes_on (Some r) =>
      if truthy r then mret r else raise (ExcAPIError missing_response None)
  end.
End execute.

End AsyncMaybeSingleRequestBuilder.

Module AsyncFilterRequestBuilder.

(** [BaseFilterRequestBuilder.__init__(self, session, headers, params)]
    runs first and [AsyncQueryRequestBuilder.__init__] then stores all six
    attributes: the object ends up with the arguments it was built from. *)
Definition init (session : AsyncClient) (path http_method : string)
    (headers : loc) (params : QueryParams) (json : JSON) : Builder :=
  {| cls := cls_AsyncFilterRequestBuilder; session := session; path := path;
     http_method := http_method; headers := headers; params := params;
     json := json |}.

End AsyncFilterRequestBuilder.

Module AsyncSelectRequestBuilder.

Definition init (session : AsyncClient) (path http_method : string)
    (headers : loc) (params : QueryParams) (json : JSON) : Builder :=
  {| cls := cls_AsyncSelectRequestBuilder; session := session; path := path;
     http_method := http_method; headers := headers; params := params;
     json := json |}.

Definition single (self : Builder) : M Builder :=
  setitem (headers self) "Accept" "application/vnd.pgrst.object+json";;
  mret (AsyncSingleRequestBuilder.init (session self) (path self)
          (http_method self) (headers self) (params self) (json self)).

Definition maybe_single (self : Builder) : M Builder :=
  setitem (headers self) "Accept" "application/vnd.pgrst.object+json";;
  mret (AsyncMaybeSingleRequestBuilder.init (session self) (path self)
          (http_method self) (headers self) (params self) (json self)).

End AsyncSelectRequestBuilder.

(** ** The request builder *)

Inductive CountMethod : Type := exact | planned | estimated.

Inductive ReturnMethod : Type := minimal | representation.

(** What a [pre_*] function returns: (method, params, headers, json). *)
Abbreviation descriptor := (string * QueryParams * loc * JSON)%type.

Module AsyncRequestBuilder.

Record t : Type := mk {
  session : AsyncClient;
  path : string
}.

Section operations.
(** The five descriptor builders of [postgrest/base_request_builder.py],
    which are not part of the sources at hand.  They hand back a header
    map of their own making, so they run in the world. *)
Variable pre_select : list string → option CountMethod → M descriptor.
Variable pre_insert : JSON → option CountMethod → ReturnMethod → bool → M descriptor.
Variable pre_upsert : JSON → option CountMethod → ReturnMethod → bool → M descriptor.
Variable pre_update : JSON → option CountMethod → ReturnMethod → M descriptor.
Variable pre_delete : option CountMethod → ReturnMethod → M descriptor.

(** In the five operations a keyword argument is [None] when the caller
    leaves it out, and the default of the signature then stands in for it. *)
Definition select (self : t) (columns : list string)
    (count : option CountMethod) : M Builder :=
  '(method, params, headers, json) ← pre_select columns count;
  mret (AsyncSelectRequestBuilder.init (session self) (path self)
          method headers params json).

Definition insert (self : t) (json : JSON) (count : option CountMethod)
    (returning : option ReturnMethod) (upsert : option bool) : M Builder :=
  let returning := default representation returning in
  let upsert := default false upsert in
  '(method, params, headers, json) ← pre_insert json count returning upsert;
  mret (AsyncQueryRequestBuilder.init (session self) (path self)
          method headers params json).

Definition upsert (self : t) (json : JSON) (count : option CountMethod)
    (returning : option ReturnMethod) (ignore_duplicates : option bool) : M Builder :=
  let returning := default representation returning in
  let ignore_duplicates := default false ignore_duplicates in
  '(method, params, headers, json) ← pre_upsert json count returning ignore_duplicates;
  mret (AsyncQueryRequestBuilder.init (session self) (path self)
          method headers params json).

Definition update (self : t) (json : JSON) (count : option CountMethod)
    (returning : option ReturnMethod) : M Builder :=
  let returning := default representation returning in
  '(method, params, headers, json) ← pre_update json count returning;
  mret (AsyncFilterRequestBuilder.init (session self) (path self)
          method headers params json).

Definition delete (self : t) (count : option CountMethod)
    (returning : option ReturnMethod) : M Builder :=
  let returning := default representation returning in
  '(method, params, headers, json) ← pre_delete count returning;
  mret (AsyncFilterRequestBuilder.init (session self) (path self)
          method headers params json).
End operations.

End AsyncRequestBuilder.

(** ** Sample clients, worlds and builders *)

Module Samples.

(** A client that answers every request with the same outcome. *)
Definition client (answer : result Response.t) : AsyncClient :=
  {| client_id := 7; respond := λ _ _, answer |}.

Definition answer (status : Z) (body : JSON) : result Response.t :=
  Ok {| Response.status_code := status; Response.json := Ok body |}.

(** A body that is not JSON (for instance the empty body of a 204). *)
Definition answer_not_json (status : Z) : result Response.t :=
  Ok {| Response.status_code := status;
        Response.json := Raise (ExcOtherError "JSONDecodeError") |}.

(** One header map in the store, behind reference 1. *)
Definition world : World :=
  {| store := {[ 1%nat := [("Prefer", "count=exact")] ]}; sent := [] |}.

(** The same, with a header map that already names a media type, in small
    letters. *)
Definition world_with_accept : World :=
  {| store := {[ 1%nat := [("accept", "text/plain"); ("Prefer", "count=exact")] ]};
     sent := [] |}.

Definition params_all : QueryParams := [("select", "*")].

Definition query (c : AsyncClient) : Builder :=
  AsyncQueryRequestBuilder.init c "/countries" "GET" 1%nat params_all (JObj []).

Definition select_builder (c : AsyncClient) : Builder :=
  AsyncSelectRequestBuilder.init c "/countries" "GET" 1%nat params_all (JObj []).

Definition single_builder (c : AsyncClient) : Builder :=
  AsyncSingleRequestBuilder.init c "/countries" "GET" 1%nat params_all (JObj []).

Definition maybe_single_builder (c : AsyncClient) : Builder :=
  AsyncMaybeSingleRequestBuilder.init c "/countries" "GET" 1%nat params_all (JObj []).

Definition row (id : Z) (name : string) : JSON :=
  JObj [("id", JNum (inject_Z id)); ("name", JStr name)].

Definition rows : list JSON := [row 1 "Albania"; row 2 "Algeria"; row 3 "Andorra"].

Definition zero_rows_error : JSON :=
  JObj [("message", JStr "JSON object requested, multiple (or no) rows returned");
        ("code", JStr "PGRST116");
        ("details", JStr "Results contain 0 rows, application/vnd.pgrst.object+json requires 1 row");
        ("hint", JNull)].

Definition permission_entries : list (string * JSON) :=
  [("message", JStr "permission denied for table countries");
   ("code", JStr "42501");
   ("details", JStr "role anon may not read countries");
   ("hint", JNull)].

Definition permission_error : JSON := JObj permission_entries.

Definition jwt_error : JSON :=
  JObj [("message", JStr "JWT expired"); ("code", JStr "PGRST301")].

(** The truth value of the objects of a class that defines neither
    [__bool__] nor [__len__]: every one of them is true. *)
Definition always_truthy (r : SingleAPIResponse.t) : bool := true.

(** A response class whose objects are false when they carry no data. *)
Definition truthy_when_data (r : SingleAPIResponse.t) : bool :=
  Py.truthy (SingleAPIResponse.data r).

(** A transport that fails before any response arrives. *)
Definition failing_client : AsyncClient :=
  {| client_id := 7; respond := λ _ _, Raise (ExcOtherError "ConnectError") |}.

(** A response model with a required field: a row object without [id] is
    rejected. *)
Definition row_with_id (r : Response.t) : result SingleAPIResponse.t :=
  match Response.json r with
  | Raise e => Raise e
  | Ok (JObj entries) =>
      if existsb (λ kv, String.eqb (fst kv) "id") entries
      then Ok {| SingleAPIResponse.data := JObj entries;
                 SingleAPIResponse.error := JNull;
                 SingleAPIResponse.count := None |}
      else Raise (ExcValidationError "id: field required")
  | Ok _ => Raise (ExcValidationError "data: value is not a valid dict")
  end.

(** A stand-in for [pre_select]: a GET on the listed columns, with the
    header map behind reference 1. *)
Definition pre_select_sample (columns : list string) (count : option CountMethod)
    : M descriptor :=
  λ w, (Ok ("GET", [("select", String.concat "," columns)], 1%nat, JObj []), w).

End Samples.

(** * Properties *)

(** ** Vocabulary of the statements *)

(** The call that [execute] hands to the transport in world [w]: the stored
    attributes of the object, the header map with its current content. *)
Definition call_of (self : Builder) (w : World) : Call :=
  {| call_session := client_id (session self);
     call_method := http_method self;
     call_path := path self;
     call_json := json self;
     call_params := params self;
     call_headers := deref w (headers self) |}.

(** The world once that call has been recorded; the store is as it was. *)
Definition after_call (self : Builder) (w : World) : World :=
  {| store := store w; sent := sent w ++ [call_of self w] |}.

(** The answer of the client of [self] in world [w]. *)
Definition answer_of (self : Builder) (w : World) : result Response.t :=
  respond (session self) (sent w) (call_of self w).

(** The outcome of [raise APIError(r.json())], with the given cause. *)
Definition raise_from_body (r : Response.t) (cause : option exception) : exception :=
  match Response.json r with
  | Ok body => ExcAPIError (APIError.init body) cause
  | Raise x => x
  end.

(** The outcome of an [execute] whose transport answered [r], for a parser
    that gives [parsed] on [r]. *)
Definition classified {A} (r : Response.t) (parsed : result A) : result A :=
  if in_2xx (Response.status_code r) then
    match parsed with
    | Raise (ExcValidationError v) => Raise (raise_from_body r (Some (ExcValidationError v)))
    | other => other
    end
  else Raise (raise_from_body r None).

(** The maybe-single [execute], case by case on the outcome of the
    single-row [execute] that it calls. *)
Definition recovered (fd : JSON → result SingleAPIResponse.t)
    (truthy : SingleAPIResponse.t → bool)
    (outcome : result SingleAPIResponse.t) : result SingleAPIResponse.t :=
  match outcome with
  | Ok r =>
      if truthy r then Ok r
      else Raise (ExcAPIError AsyncMaybeSingleRequestBuilder.missing_response None)
  | Raise (ExcAPIError e _) =>
      match Py.and_contains (APIError.details e) "Results contain 0 rows" with
      | Ok true => fd AsyncMaybeSingleRequestBuilder.zero_rows_dict
      | Ok false => Raise (ExcAPIError AsyncMaybeSingleRequestBuilder.missing_response None)
      | Raise x => Raise x
      end
  | Raise x => Raise x
  end.

Definition accept_object : string := "application/vnd.pgrst.object+json".

(** [hs'] is [hs] with the [Accept] header set: the entries named Accept,
    in whatever case, have given way to the one entry
    [Accept: application/vnd.pgrst.object+json], and the entries of every
    other name are the same, in the same order. *)
Definition accept_set (hs hs' : Headers) : Prop :=
  List.filter (httpx.item_key_is "accept") hs' = [("Accept", accept_object)]
  ∧ List.filter (λ item, negb (httpx.item_key_is "accept" item)) hs'
    = List.filter (λ item, negb (httpx.item_key_is "accept" item)) hs.

(** What [op] (one of [single], [maybe_single]) does on the select builder
    [self] whose header map holds [hs] in world [w]: it returns an object of
    class [c] with the attributes of [self], the header reference included;
    the header map behind that reference has had [Accept] set in place, so
    that every holder of the reference reads the new value under that name;
    the headers of other names, the other header maps and the calls sent
    are as before. *)
Definition switches_to (c : PyClass) (op : Builder → M Builder)
    (self : Builder) (w : World) (hs : Headers) : Prop :=
  ∃ b w',
    op self w = (Ok b, w')
    ∧ cls b = c
    ∧ headers b = headers self
    ∧ (http_method b = http_method self ∧ path b = path self
       ∧ params b = params self ∧ json b = json self ∧ session b = session self)
    ∧ store w' !! headers self = Some (httpx.Headers_setitem "Accept" accept_object hs)
    ∧ accept_set hs (httpx.Headers_setitem "Accept" accept_object hs)
    ∧ (∀ (alias : Builder) (name : string),
         headers alias = headers self → httpx.lower name = "accept" →
         httpx.Headers_getitem name (deref w' (headers alias)) = Some accept_object)
    ∧ (∀ name, httpx.lower name ≠ "accept" →
         httpx.Headers_getitem name (deref w' (headers self))
         = httpx.Headers_getitem name hs)
    ∧ (∀ l, l ≠ headers self → store w' !! l = store w !! l)
    ∧ sent w' = sent w.

(** [op] hands the work to [pre] and wraps what [pre] returns, (method,
    params, headers, json), in an object of class [c] that also holds the
    session and the path of the request builder; if [pre] raises, so does
    [op]. *)
Definition wraps (c : PyClass) (self : AsyncRequestBuilder.t) (pre : M descriptor)
    (op : M Builder) : Prop :=
  ∀ w,
    match pre w with
    | (Ok (method, params, headers, json), w') =>
        op w = (Ok {| cls := c;
                      session := AsyncRequestBuilder.session self;
                      path := AsyncRequestBuilder.path self;
                      http_method := method; headers := headers;
                      params := params; json := json |}, w')
    | (Raise e, w') => op w = (Raise e, w')
    end.

Ltac unfold_monad :=
  unfold mbind, M_bind, mret, M_ret, raise, lift, request,
    try_except_ValidationError, try_except_APIError.

Ltac run_execute :=
  unfold_monad; cbn;
  repeat match goal with
    | H : answer_of ?s ?w = _ |- _ => unfold answer_of, call_of in H; rewrite H
    | |- context [in_2xx ?c] => destruct (in_2xx c) eqn:?
    | |- context [Response.json ?r] => destruct (Response.json r) as [?|[]] eqn:?
    | |- context [match ?p ?r with Ok _ => _ | Raise _ => _ end] =>
        destruct (p r) as [?|[]] eqn:?
    | _ => progress cbn
    end.

(** ** What [execute] sends and how it classifies the answer *)

Lemma query_execute_answered p self w r :
  answer_of self w = Ok r →
  AsyncQueryRequestBuilder.execute p self w = (classified r (p r), after_call self w).
Proof.
  intros Hr. unfold AsyncQueryRequestBuilder.execute, classified, raise_from_body, after_call.
  run_execute; try reflexivity.
  all: destruct (p r) as [?|[]]; reflexivity.
Qed.

Lemma query_execute_unanswered p self w e :
  answer_of self w = Raise e →
  AsyncQueryRequestBuilder.execute p self w = (Raise e, after_call self w).
Proof.
  intros Hr. unfold AsyncQueryRequestBuilder.execute, after_call.
  run_execute; reflexivity.
Qed.

Lemma single_execute_answered p self w r :
  answer_of self w = Ok r →
  AsyncSingleRequestBuilder.execute p self w = (classified r (p r), after_call self w).
Proof.
  intros Hr. unfold AsyncSingleRequestBuilder.execute, classified, raise_from_body, after_call.
  run_execute; try reflexivity.
  all: destruct (p r) as [?|[]]; reflexivity.
Qed.

Lemma single_execute_unanswered p self w e :
  answer_of self w = Raise e →
  AsyncSingleRequestBuilder.execute p self w = (Raise e, after_call self w).
Proof.
  intros Hr. unfold AsyncSingleRequestBuilder.execute, after_call.
  run_execute; reflexivity.
Qed.

Lemma query_execute_world p self w :
  snd (AsyncQueryRequestBuilder.execute p self w) = after_call self w.
Proof.
  destruct (answer_of self w) as [r|e] eqn:Hr.
  - by rewrite (query_execute_answered _ _ _ _ Hr).
  - by rewrite (query_execute_unanswered _ _ _ _ Hr).
Qed.

Lemma single_execute_world p self w :
  snd (AsyncSingleRequestBuilder.execute p self w) = after_call self w.
Proof.
  destruct (answer_of self w) as [r|e] eqn:Hr.
  - by rewrite (single_execute_answered _ _ _ _ Hr).
  - by rewrite (single_execute_unanswered _ _ _ _ Hr).
Qed.

Lemma maybe_single_execute_cases p fd truthy self w :
  AsyncMaybeSingleRequestBuilder.execute p fd truthy self w =
  (recovered fd truthy (fst (AsyncSingleRequestBuilder.execute p self w)),
   snd (AsyncSingleRequestBuilder.execute p self w)).
Proof.
  unfold AsyncMaybeSingleRequestBuilder.execute, recovered.
  unfold mbind at 1, M_bind at 1, try_except_APIError, mbind at 1, M_bind at 1.
  destruct (AsyncSingleRequestBuilder.execute p self w) as [[r|[e c|v|x]] w']; cbn;
    try reflexivity.
  - destruct (truthy r); reflexivity.
  - unfold_monad.
    destruct (Py.and_contains (APIError.details e) _) as [[|]|x]; cbn; try reflexivity.
    destruct (fd _); reflexivity.
Qed.

Lemma in_2xx_true c : in_2xx c = true ↔ (200 ≤ c ≤ 299)%Z.
Proof. unfold in_2xx. apply bool_decide_eq_true. Qed.

Lemma in_2xx_false c : in_2xx c = false ↔ ¬ (200 ≤ c ≤ 299)%Z.
Proof. unfold in_2xx. apply bool_decide_eq_false. Qed.

(** ** The substring test *)

Lemma startswith_spec s sub :
  Py.startswith s sub = true ↔ ∃ rest, s = sub +:+ rest.
Proof.
  revert s. induction sub as [|a sub IH]; intros s; cbn.
  - split; [intros _; by exists s | done].
  - destruct s as [|b s].
    + split; [done | intros [rest Hrest]; discriminate].
    + rewrite andb_true_iff, IH, Ascii.eqb_eq. split.
      * intros [-> [rest ->]]. by exists rest.
      * intros [rest Hrest]. injection Hrest as -> ->. split; [done | by exists rest].
Qed.

Lemma str_contains_spec sub s :
  Py.str_contains sub s = true ↔ ∃ before rest, s = before +:+ sub +:+ rest.
Proof.
  induction s as [|b s IH]; cbn; rewrite orb_true_iff, startswith_spec.
  - split.
    + intros [[rest Hrest]|?]; [|done]. by exists "", rest.
    + intros ([|? before] & rest & Hrest); [|discriminate]. left. by exists rest.
  - rewrite IH. split.
    + intros [[rest Hrest]|(before & rest & ->)].
      * by exists "", rest.
      * by exists (String b before), rest.
    + intros ([|c before] & rest & Hrest).
      * left. by exists rest.
      * cbn in Hrest. injection Hrest as -> ->. right. by exists before, rest.
Qed.

(** A string in which a non-empty string occurs is true. *)
Lemma str_contains_truthy sub s :
  sub ≠ "" → Py.str_contains sub s = true → Py.truthy (JStr s) = true.
Proof.
  intros Hsub Hin. destruct s as [|b s]; [|done].
  cbn in Hin. destruct sub; [done | discriminate].
Qed.

Lemma and_contains_str needle s :
  needle ≠ "" →
  Py.and_contains (JStr s) needle = Ok (Py.str_contains needle s).
Proof.
  intros Hne. unfold Py.and_contains. destruct s as [|b s]; [|done].
  cbn. destruct needle; [done | reflexivity].
Qed.

(** ** The plain query executor *)

(** C4.  When the transport answers with a status in [200, 299] and a body
    that is a JSON array of row objects, [execute] of the plain query
    executor returns a response whose [data] is that array, the same rows in
    the same order; when the status is outside the range, [execute] does not
    return: it raises, whatever the body and the parser. *)
Theorem query_execute_returns_rows_in_2xx_only (self : Builder) (w : World) (r : Response.t) :
  answer_of self w = Ok r →
  (∀ rows,
     (200 ≤ Response.status_code r ≤ 299)%Z →
     Response.json r = Ok (JArr rows) →
     forallb is_object rows = true →
     ∃ resp,
       fst (AsyncQueryRequestBuilder.execute
              APIResponse.from_http_request_response self w) = Ok resp
       ∧ APIResponse.data resp = rows)
  ∧ (∀ p,
       ¬ (200 ≤ Response.status_code r ≤ 299)%Z →
       raised (fst (AsyncQueryRequestBuilder.execute p self w)) = true).
Proof.
  intros Hr. split.
  - intros rows Hstatus Hbody Hrows.
    rewrite (query_execute_answered _ _ _ _ Hr). cbn.
    unfold classified. apply in_2xx_true in Hstatus as ->.
    unfold APIResponse.from_http_request_response. rewrite Hbody, Hrows.
    by eexists.
  - intros p Hstatus.
    rewrite (query_execute_answered _ _ _ _ Hr). cbn.
    unfold classified. by apply in_2xx_false in Hstatus as ->.
Qed.

Lemma query_execute_returns_rows_witness :
  (∃ resp,
     fst (AsyncQueryRequestBuilder.execute APIResponse.from_http_request_response
            (Samples.query (Samples.client (Samples.answer 200 (JArr Samples.rows))))
            Samples.world) = Ok resp
     ∧ APIResponse.data resp = Samples.rows)
  ∧ raised (fst (AsyncQueryRequestBuilder.execute APIResponse.from_http_request_response
                   (Samples.query (Samples.client (Samples.answer 404 (JArr Samples.rows))))
                   Samples.world)) = true.
Proof.
  split.
  - apply (proj1 (query_execute_returns_rows_in_2xx_only
                    (Samples.query (Samples.client (Samples.answer 200 (JArr Samples.rows))))
                    Samples.world _ eq_refl) Samples.rows);
      [cbn; lia | reflexivity | reflexivity].
  - apply (proj2 (query_execute_returns_rows_in_2xx_only
                    (Samples.query (Samples.client (Samples.answer 404 (JArr Samples.rows))))
                    Samples.world _ eq_refl)).
    cbn; lia.
Defined.

(** C5.  When the transport answers with a status outside [200, 299] and a
    body that is a JSON object, [execute] raises an [APIError] (with no
    cause) whose message, code, hint and details are the values that the
    body holds under these keys. *)
Theorem query_execute_raises_error_body (p : Response.t → result APIResponse.t)
    (self : Builder) (w : World) (r : Response.t) (entries : list (string * JSON)) :
  answer_of self w = Ok r →
  ¬ (200 ≤ Response.status_code r ≤ 299)%Z →
  Response.json r = Ok (JObj entries) →
  ∃ err,
    fst (AsyncQueryRequestBuilder.execute p self w) = Raise (ExcAPIError err None)
    ∧ APIError.message err = dict_get "message" entries
    ∧ APIError.code err = dict_get "code" entries
    ∧ APIError.hint err = dict_get "hint" entries
    ∧ APIError.details err = dict_get "details" entries.
Proof.
  intros Hr Hstatus Hbody.
  rewrite (query_execute_answered _ _ _ _ Hr). cbn.
  unfold classified, raise_from_body. apply in_2xx_false in Hstatus as ->.
  rewrite Hbody. by eexists.
Qed.

Lemma query_execute_raises_error_body_witness :
  ∃ err,
    fst (AsyncQueryRequestBuilder.execute APIResponse.from_http_request_response
           (Samples.query (Samples.client (Samples.answer 403 Samples.permission_error)))
           Samples.world) = Raise (ExcAPIError err None)
    ∧ APIError.message err = JStr "permission denied for table countries"
    ∧ APIError.code err = JStr "42501"
    ∧ APIError.hint err = JNull
    ∧ APIError.details err = JStr "role anon may not read countries".
Proof.
  exact (query_execute_raises_error_body APIResponse.from_http_request_response
           (Samples.query (Samples.client (Samples.answer 403 Samples.permission_error)))
           Samples.world _ Samples.permission_entries
           eq_refl ltac:(cbn; lia) eq_refl).
Defined.

(** C6 (as it holds).  When the transport answers with a status in
    [200, 299] and a body that is JSON, and the response model rejects that
    body with a [ValidationError], [execute] of the query executor and
    [execute] of the single-row executor raise the [APIError] built from
    [r.json()], with the [ValidationError] as its cause. *)
Theorem execute_chains_validation_error (self : Builder) (w : World) (r : Response.t)
    (body : JSON) (v : string) :
  answer_of self w = Ok r →
  (200 ≤ Response.status_code r ≤ 299)%Z →
  Response.json r = Ok body →
  (∀ p, p r = Raise (ExcValidationError v) →
        fst (AsyncQueryRequestBuilder.execute p self w) =
        Raise (ExcAPIError (APIError.init body) (Some (ExcValidationError v))))
  ∧ (∀ p, p r = Raise (ExcValidationError v) →
          fst (AsyncSingleRequestBuilder.execute p self w) =
          Raise (ExcAPIError (APIError.init body) (Some (ExcValidationError v)))).
Proof.
  intros Hr Hstatus Hbody. apply in_2xx_true in Hstatus.
  split; intros p Hp.
  - rewrite (query_execute_answered _ _ _ _ Hr). cbn.
    unfold classified, raise_from_body. by rewrite Hstatus, Hp, Hbody.
  - rewrite (single_execute_answered _ _ _ _ Hr). cbn.
    unfold classified, raise_from_body. by rewrite Hstatus, Hp, Hbody.
Qed.

Lemma execute_chains_validation_error_witness :
  fst (AsyncQueryRequestBuilder.execute APIResponse.from_http_request_response
         (Samples.query (Samples.client (Samples.answer 200 (JStr "ok"))))
         Samples.world) =
  Raise (ExcAPIError (APIError.init (JStr "ok"))
           (Some (ExcValidationError "data: value is not a valid list")))
  ∧ fst (AsyncSingleRequestBuilder.execute SingleAPIResponse.from_http_request_response
           (Samples.single_builder (Samples.client (Samples.answer 200 (JStr "ok"))))
           Samples.world) =
    Raise (ExcAPIError (APIError.init (JStr "ok"))
             (Some (ExcValidationError "data: value is not a valid dict"))).
Proof.
  split.
  - apply (proj1 (execute_chains_validation_error
                    (Samples.query (Samples.client (Samples.answer 200 (JStr "ok"))))
                    Samples.world _ (JStr "ok") "data: value is not a valid list"
                    eq_refl ltac:(cbn; lia) eq_refl)
                 APIResponse.from_http_request_response eq_refl).
  - apply (proj2 (execute_chains_validation_error
                    (Samples.single_builder (Samples.client (Samples.answer 200 (JStr "ok"))))
                    Samples.world _ (JStr "ok") "data: value is not a valid dict"
                    eq_refl ltac:(cbn; lia) eq_refl)
                 SingleAPIResponse.from_http_request_response eq_refl).
Defined.

(** With a body that is not JSON nothing can be built from [r.json()]: in
    the handler too the call raises, and the decoder's exception is what
    leaves [execute], whichever way the parser failed. *)
Lemma execute_not_json_raises_decoder_error (p : Response.t → result APIResponse.t)
    (self : Builder) (w : World) (r : Response.t) (name : string) :
  answer_of self w = Ok r →
  (200 ≤ Response.status_code r ≤ 299)%Z →
  Response.json r = Raise (ExcOtherError name) →
  (∀ v, p r = Raise (ExcValidationError v) →
        fst (AsyncQueryRequestBuilder.execute p self w) = Raise (ExcOtherError name))
  ∧ (∀ other, p r = Raise (ExcOtherError other) →
              fst (AsyncQueryRequestBuilder.execute p self w) = Raise (ExcOtherError other)).
Proof.
  intros Hr Hstatus Hbody. apply in_2xx_true in Hstatus.
  split; intros ? Hp; rewrite (query_execute_answered _ _ _ _ Hr); cbn;
    unfold classified, raise_from_body; by rewrite Hstatus, Hp, ?Hbody.
Qed.

(** C6 as stated fails: a 204 whose body is empty cannot be parsed into a
    response, and what escapes [execute] is the decoder's exception, not an
    [APIError]. *)
Lemma execute_not_json_escapes :
  answer_of (Samples.query (Samples.client (Samples.answer_not_json 204))) Samples.world
    = Samples.answer_not_json 204
  ∧ in_2xx 204 = true
  ∧ APIResponse.from_http_request_response
      {| Response.status_code := 204;
         Response.json := Raise (ExcOtherError "JSONDecodeError") |}
    = Raise (ExcOtherError "JSONDecodeError")
  ∧ fst (AsyncQueryRequestBuilder.execute APIResponse.from_http_request_response
           (Samples.query (Samples.client (Samples.answer_not_json 204)))
           Samples.world) = Raise (ExcOtherError "JSONDecodeError")
  ∧ is_APIError (ExcOtherError "JSONDecodeError") = false.
Proof. repeat split. Qed.

(** ** One call of the transport per [execute] *)

(** C9.  One [execute] of a query, single-row or maybe-single executor
    leaves the store of header maps as it was and adds exactly one call to
    the calls sent: the call with the stored method, path, json body, params
    and headers of the object.  A second [execute] adds that call a second
    time. *)
Theorem execute_sends_exactly_one_request
    (p : Response.t → result APIResponse.t)
    (ps : Response.t → result SingleAPIResponse.t)
    (fd : JSON → result SingleAPIResponse.t) (truthy : SingleAPIResponse.t → bool)
    (self : Builder) (w : World) :
  let once := {| store := store w; sent := sent w ++ [call_of self w] |} in
  let twice := {| store := store w; sent := sent w ++ [call_of self w; call_of self w] |} in
  let query := AsyncQueryRequestBuilder.execute p self in
  let single := AsyncSingleRequestBuilder.execute ps self in
  let maybe_single := AsyncMaybeSingleRequestBuilder.execute ps fd truthy self in
  (snd (query w) = once ∧ snd (single w) = once ∧ snd (maybe_single w) = once)
  ∧ (snd (query (snd (query w))) = twice
     ∧ snd (single (snd (single w))) = twice
     ∧ snd (maybe_single (snd (maybe_single w))) = twice).
Proof.
  cbn zeta.
  assert (Hagain : after_call self (after_call self w) =
            {| store := store w; sent := sent w ++ [call_of self w; call_of self w] |}).
  { unfold after_call; cbn. by rewrite <- app_assoc. }
  repeat split;
    rewrite ?maybe_single_execute_cases; cbn [snd];
    rewrite ?query_execute_world, ?single_execute_world; try done.
Qed.

(** ** The maybe-single executor *)

(** C10.  When the single-row [execute] returns a response, the maybe-single
    [execute] returns that same response if the response object is true, and
    raises the local "Missing response" error with code "204" if it is
    false. *)
Theorem maybe_single_execute_passes_response
    (ps : Response.t → result SingleAPIResponse.t)
    (fd : JSON → result SingleAPIResponse.t) (truthy : SingleAPIResponse.t → bool)
    (self : Builder) (w w' : World) (r : SingleAPIResponse.t) :
  AsyncSingleRequestBuilder.execute ps self w = (Ok r, w') →
  AsyncMaybeSingleRequestBuilder.execute ps fd truthy self w =
  (if truthy r then Ok r
   else Raise (ExcAPIError AsyncMaybeSingleRequestBuilder.missing_response None), w')
  ∧ APIError.code AsyncMaybeSingleRequestBuilder.missing_response = JStr "204"
  ∧ APIError.message AsyncMaybeSingleRequestBuilder.missing_response = JStr "Missing response".
Proof.
  intros Hsingle. rewrite maybe_single_execute_cases, Hsingle. done.
Qed.

(** C3.  When the single-row [execute] raises an [APIError] whose details
    are a string in which "Results contain 0 rows" occurs, the maybe-single
    [execute] raises nothing: it returns the response with data = null,
    error = null and count = 0. *)
Theorem maybe_single_execute_recovers_zero_rows
    (ps : Response.t → result SingleAPIResponse.t) (truthy : SingleAPIResponse.t → bool)
    (self : Builder) (w w' : World) (e : APIError.t) (cause : option exception)
    (s : string) :
  AsyncSingleRequestBuilder.execute ps self w = (Raise (ExcAPIError e cause), w') →
  APIError.details e = JStr s →
  Py.str_contains "Results contain 0 rows" s = true →
  ∃ resp,
    AsyncMaybeSingleRequestBuilder.execute ps SingleAPIResponse.from_dict truthy self w
      = (Ok resp, w')
    ∧ SingleAPIResponse.data resp = JNull
    ∧ SingleAPIResponse.error resp = JNull
    ∧ SingleAPIResponse.count resp = Some 0%Z.
Proof.
  intros Hsingle Hdetails Hin.
  rewrite maybe_single_execute_cases, Hsingle. cbn [fst snd recovered].
  rewrite Hdetails, and_contains_str, Hin by done.
  by eexists.
Qed.

(** C1 (as it holds).  When the single-row [execute] raises an [APIError]
    for which the test [e.details and "Results contain 0 rows" in e.details]
    is false (the details are null or empty, or a string in which the
    substring does not occur), the maybe-single [execute] does not raise
    that error again: it raises the local "Missing response" error with code
    "204". *)
Theorem maybe_single_execute_replaces_other_errors
    (ps : Response.t → result SingleAPIResponse.t)
    (fd : JSON → result SingleAPIResponse.t) (truthy : SingleAPIResponse.t → bool)
    (self : Builder) (w w' : World) (e : APIError.t) (cause : option exception) :
  AsyncSingleRequestBuilder.execute ps self w = (Raise (ExcAPIError e cause), w') →
  Py.and_contains (APIError.details e) "Results contain 0 rows" = Ok false →
  AsyncMaybeSingleRequestBuilder.execute ps fd truthy self w =
  (Raise (ExcAPIError AsyncMaybeSingleRequestBuilder.missing_response None), w').
Proof.
  intros Hsingle Htest.
  rewrite maybe_single_execute_cases, Hsingle. cbn [fst snd recovered].
  by rewrite Htest.
Qed.

(** C2 (as it holds).  The maybe-single [execute] raises the local "Missing
    response" error with code "204" exactly when the single-row [execute]
    returned a response object that is false, or raised an [APIError] for
    which the zero-rows test is false. *)
Theorem maybe_single_execute_missing_response_iff
    (ps : Response.t → result SingleAPIResponse.t) (truthy : SingleAPIResponse.t → bool)
    (self : Builder) (w : World) :
  fst (AsyncMaybeSingleRequestBuilder.execute ps SingleAPIResponse.from_dict truthy self w)
    = Raise (ExcAPIError AsyncMaybeSingleRequestBuilder.missing_response None)
  ↔ (∃ r, fst (AsyncSingleRequestBuilder.execute ps self w) = Ok r ∧ truthy r = false)
    ∨ (∃ e cause,
         fst (AsyncSingleRequestBuilder.execute ps self w) = Raise (ExcAPIError e cause)
         ∧ Py.and_contains (APIError.details e) "Results contain 0 rows" = Ok false).
Proof.
  rewrite maybe_single_execute_cases. cbn [fst].
  destruct (fst (AsyncSingleRequestBuilder.execute ps self w)) as [r|[e c|v|x]]; cbn.
  - destruct (truthy r) eqn:Ht; split.
    + discriminate.
    + intros [(r' & [= <-] & Hf)|(? & ? & ? & _)]; congruence.
    + intros _. left. by exists r.
    + done.
  - destruct (Py.and_contains (APIError.details e) _) as [[|]|x] eqn:Htest; split.
    + discriminate.
    + intros [(? & ? & _)|(e' & c' & [= <- <-] & Hf)]; congruence.
    + intros _. right. by exists e, c.
    + done.
    + unfold Py.and_contains, Py.contains in Htest.
      destruct (Py.truthy _), (APIError.details e); congruence.
    + intros [(? & ? & _)|(e' & c' & [= <- <-] & Hf)]; congruence.
  - split; [discriminate | intros [(? & ? & _)|(? & ? & ? & _)]; discriminate].
  - split; [discriminate | intros [(? & ? & _)|(? & ? & ? & _)]; discriminate].
Qed.

Lemma maybe_single_execute_passes_response_witness :
  fst (AsyncMaybeSingleRequestBuilder.execute
         SingleAPIResponse.from_http_request_response SingleAPIResponse.from_dict
         Samples.always_truthy
         (Samples.maybe_single_builder
            (Samples.client (Samples.answer 200 (Samples.row 1 "Albania"))))
         Samples.world)
    = Ok {| SingleAPIResponse.data := Samples.row 1 "Albania";
            SingleAPIResponse.error := JNull;
            SingleAPIResponse.count := None |}
  ∧ fst (AsyncMaybeSingleRequestBuilder.execute
           SingleAPIResponse.from_http_request_response SingleAPIResponse.from_dict
           Samples.truthy_when_data
           (Samples.maybe_single_builder (Samples.client (Samples.answer 200 (JObj []))))
           Samples.world)
    = Raise (ExcAPIError AsyncMaybeSingleRequestBuilder.missing_response None).
Proof.
  split.
  - rewrite (proj1 (maybe_single_execute_passes_response
                      SingleAPIResponse.from_http_request_response
                      SingleAPIResponse.from_dict Samples.always_truthy
                      (Samples.maybe_single_builder
                         (Samples.client (Samples.answer 200 (Samples.row 1 "Albania"))))
                      Samples.world _ _ eq_refl)).
    reflexivity.
  - rewrite (proj1 (maybe_single_execute_passes_response
                      SingleAPIResponse.from_http_request_response
                      SingleAPIResponse.from_dict Samples.truthy_when_data
                      (Samples.maybe_single_builder
                         (Samples.client (Samples.answer 200 (JObj []))))
                      Samples.world _ _ eq_refl)).
    reflexivity.
Defined.

Lemma maybe_single_execute_recovers_zero_rows_witness :
  ∃ resp,
    AsyncMaybeSingleRequestBuilder.execute
      SingleAPIResponse.from_http_request_response SingleAPIResponse.from_dict
      Samples.always_truthy
      (Samples.maybe_single_builder
         (Samples.client (Samples.answer 406 Samples.zero_rows_error)))
      Samples.world
    = (Ok resp,
       after_call (Samples.maybe_single_builder
                     (Samples.client (Samples.answer 406 Samples.zero_rows_error)))
         Samples.world)
    ∧ SingleAPIResponse.data resp = JNull
    ∧ SingleAPIResponse.error resp = JNull
    ∧ SingleAPIResponse.count resp = Some 0%Z.
Proof.
  exact (maybe_single_execute_recovers_zero_rows
           SingleAPIResponse.from_http_request_response Samples.always_truthy
           (Samples.maybe_single_builder
              (Samples.client (Samples.answer 406 Samples.zero_rows_error)))
           Samples.world _ (APIError.init Samples.zero_rows_error) None
           "Results contain 0 rows, application/vnd.pgrst.object+json requires 1 row"
           eq_refl eq_refl eq_refl).
Defined.

Lemma maybe_single_execute_replaces_other_errors_witness :
  AsyncMaybeSingleRequestBuilder.execute
    SingleAPIResponse.from_http_request_response SingleAPIResponse.from_dict
    Samples.always_truthy
    (Samples.maybe_single_builder
       (Samples.client (Samples.answer 403 Samples.permission_error)))
    Samples.world
  = (Raise (ExcAPIError AsyncMaybeSingleRequestBuilder.missing_response None),
     after_call (Samples.maybe_single_builder
                   (Samples.client (Samples.answer 403 Samples.permission_error)))
       Samples.world).
Proof.
  exact (maybe_single_execute_replaces_other_errors
           SingleAPIResponse.from_http_request_response SingleAPIResponse.from_dict
           Samples.always_truthy
           (Samples.maybe_single_builder
              (Samples.client (Samples.answer 403 Samples.permission_error)))
           Samples.world _ (APIError.init Samples.permission_error) None
           eq_refl eq_refl).
Defined.

(** C1 as stated fails: the single-row [execute] raises the upstream
    "permission denied" error, whose details do not mention zero rows, and
    the maybe-single [execute] raises the "Missing response" error in its
    place. *)
Lemma maybe_single_execute_does_not_reraise :
  fst (AsyncSingleRequestBuilder.execute SingleAPIResponse.from_http_request_response
         (Samples.maybe_single_builder
            (Samples.client (Samples.answer 403 Samples.permission_error)))
         Samples.world)
    = Raise (ExcAPIError (APIError.init Samples.permission_error) None)
  ∧ APIError.details (APIError.init Samples.permission_error)
    = JStr "role anon may not read countries"
  ∧ Py.str_contains "Results contain 0 rows" "role anon may not read countries" = false
  ∧ fst (AsyncMaybeSingleRequestBuilder.execute
           SingleAPIResponse.from_http_request_response SingleAPIResponse.from_dict
           Samples.always_truthy
           (Samples.maybe_single_builder
              (Samples.client (Samples.answer 403 Samples.permission_error)))
           Samples.world)
    = Raise (ExcAPIError AsyncMaybeSingleRequestBuilder.missing_response None)
  ∧ ExcAPIError AsyncMaybeSingleRequestBuilder.missing_response None
    ≠ ExcAPIError (APIError.init Samples.permission_error) None.
Proof. repeat split. discriminate. Qed.

(** C2 as stated fails: the single-row [execute] raised an [APIError] (an
    expired token, reported without details), and the "Missing response"
    branch is the one taken. *)
Lemma maybe_single_execute_missing_response_after_error :
  fst (AsyncSingleRequestBuilder.execute SingleAPIResponse.from_http_request_response
         (Samples.maybe_single_builder
            (Samples.client (Samples.answer 401 Samples.jwt_error)))
         Samples.world)
    = Raise (ExcAPIError (APIError.init Samples.jwt_error) None)
  ∧ fst (AsyncMaybeSingleRequestBuilder.execute
           SingleAPIResponse.from_http_request_response SingleAPIResponse.from_dict
           Samples.always_truthy
           (Samples.maybe_single_builder
              (Samples.client (Samples.answer 401 Samples.jwt_error)))
           Samples.world)
    = Raise (ExcAPIError AsyncMaybeSingleRequestBuilder.missing_response None)
  ∧ APIError.code AsyncMaybeSingleRequestBuilder.missing_response = JStr "204".
Proof. repeat split. Qed.

(** ** The header map *)

Lemma found_from_S idx lk l : httpx.found_from (S idx) lk l = S <$> httpx.found_from idx lk l.
Proof.
  revert idx. induction l as [|item l IH]; intros idx; cbn; [done|].
  destruct (httpx.item_key_is lk item); cbn; by rewrite IH.
Qed.

Lemma delete_shifted (item : string * string) (l : Headers) (idxs : list nat) :
  foldl (λ acc idx, delete idx acc) (item :: l) (S <$> idxs)
  = item :: foldl (λ acc idx, delete idx acc) l idxs.
Proof.
  revert l. induction idxs as [|i idxs IH]; intros l; cbn; [done|]. apply IH.
Qed.

Lemma delete_found lk (l : Headers) :
  foldl (λ acc idx, delete idx acc) l (reverse (httpx.found_from 0 lk l))
  = List.filter (λ item, negb (httpx.item_key_is lk item)) l.
Proof.
  induction l as [|item l IH]; [done|].
  cbn [httpx.found_from List.filter]. rewrite found_from_S.
  destruct (httpx.item_key_is lk item); cbn [negb].
  - rewrite reverse_cons, foldl_app, <- fmap_reverse, delete_shifted, IH. done.
  - rewrite <- fmap_reverse, delete_shifted, IH. done.
Qed.

(** [Headers.__setitem__], entry by entry. *)
Lemma Headers_setitem_nil key value : httpx.Headers_setitem key value [] = [(key, value)].
Proof. done. Qed.

Lemma Headers_setitem_cons key value item (l : Headers) :
  httpx.Headers_setitem key value (item :: l)
  = if httpx.item_key_is (httpx.lower key) item
    then (key, value) :: List.filter (λ item, negb (httpx.item_key_is (httpx.lower key) item)) l
    else item :: httpx.Headers_setitem key value l.
Proof.
  unfold httpx.Headers_setitem. cbn [httpx.found_from]. rewrite found_from_S.
  destruct (httpx.item_key_is (httpx.lower key) item).
  - cbn [tail]. by rewrite <- fmap_reverse, delete_shifted, delete_found.
  - rewrite <- fmap_tail, <- fmap_reverse, delete_shifted.
    by destruct (httpx.found_from 0 (httpx.lower key) l).
Qed.

Lemma filter_filter_implied {A} (p q : A → bool) (l : list A) :
  (∀ x, p x = true → q x = true) →
  List.filter p (List.filter q l) = List.filter p l.
Proof.
  intros Hpq. induction l as [|x l IH]; cbn; [done|].
  destruct (q x) eqn:Hq; cbn.
  - by rewrite IH.
  - destruct (p x) eqn:Hp; [|done]. apply Hpq in Hp. congruence.
Qed.

Lemma filter_filter_excluded {A} (p q : A → bool) (l : list A) :
  (∀ x, p x = true → q x = false) →
  List.filter p (List.filter q l) = [].
Proof.
  intros Hpq. induction l as [|x l IH]; cbn; [done|].
  destruct (q x) eqn:Hq; cbn; [|done].
  destruct (p x) eqn:Hp; [|done]. apply Hpq in Hp. congruence.
Qed.

Lemma Headers_setitem_own key value (l : Headers) :
  List.filter (httpx.item_key_is (httpx.lower key)) (httpx.Headers_setitem key value l)
  = [(key, value)].
Proof.
  assert (Hown : httpx.item_key_is (httpx.lower key) (key, value) = true)
    by apply String.eqb_refl.
  induction l as [|item l IH].
  - rewrite Headers_setitem_nil. cbn [List.filter]. by rewrite Hown.
  - rewrite Headers_setitem_cons.
    destruct (httpx.item_key_is (httpx.lower key) item) eqn:Hitem; cbn [List.filter].
    + rewrite Hown. f_equal. apply filter_filter_excluded. by intros x ->.
    + by rewrite Hitem.
Qed.

Lemma Headers_setitem_others key value (l : Headers) :
  List.filter (λ item, negb (httpx.item_key_is (httpx.lower key) item))
    (httpx.Headers_setitem key value l)
  = List.filter (λ item, negb (httpx.item_key_is (httpx.lower key) item)) l.
Proof.
  assert (Hown : httpx.item_key_is (httpx.lower key) (key, value) = true)
    by apply String.eqb_refl.
  induction l as [|item l IH].
  - rewrite Headers_setitem_nil. cbn [List.filter]. by rewrite Hown.
  - rewrite Headers_setitem_cons. cbn [List.filter].
    destruct (httpx.item_key_is (httpx.lower key) item) eqn:Hitem; cbn [List.filter negb].
    + rewrite Hown. cbn [negb]. by apply filter_filter_implied.
    + by rewrite Hitem, IH.
Qed.

Lemma Headers_setitem_again key value (l : Headers) :
  httpx.Headers_setitem key value (httpx.Headers_setitem key value l)
  = httpx.Headers_setitem key value l.
Proof.
  assert (Hown : httpx.item_key_is (httpx.lower key) (key, value) = true)
    by apply String.eqb_refl.
  induction l as [|item l IH].
  - rewrite Headers_setitem_nil, Headers_setitem_cons, Hown. done.
  - rewrite Headers_setitem_cons.
    destruct (httpx.item_key_is (httpx.lower key) item) eqn:Hitem.
    + rewrite Headers_setitem_cons, Hown. f_equal. by apply filter_filter_implied.
    + by rewrite Headers_setitem_cons, Hitem, IH.
Qed.

Lemma Headers_getitem_set key value name (l : Headers) :
  httpx.lower name = httpx.lower key →
  httpx.Headers_getitem name (httpx.Headers_setitem key value l) = Some value.
Proof.
  intros Hname. unfold httpx.Headers_getitem. rewrite Hname, Headers_setitem_own.
  cbn. done.
Qed.

Lemma Headers_getitem_other key value name (l : Headers) :
  httpx.lower name ≠ httpx.lower key →
  httpx.Headers_getitem name (httpx.Headers_setitem key value l)
  = httpx.Headers_getitem name l.
Proof.
  intros Hname. unfold httpx.Headers_getitem.
  assert (Himp : ∀ item, httpx.item_key_is (httpx.lower name) item = true →
                         negb (httpx.item_key_is (httpx.lower key) item) = true).
  { intros item Hitem. unfold httpx.item_key_is in *.
    apply String.eqb_eq in Hitem. apply negb_true_iff, String.eqb_neq. congruence. }
  rewrite <- (filter_filter_implied _ _ (httpx.Headers_setitem key value l) Himp).
  rewrite Headers_setitem_others.
  by rewrite (filter_filter_implied _ _ l Himp).
Qed.

(** A media type already present under [accept] or [ACCEPT] gives way to
    the one entry [Accept], and a reader of either name gets the new
    value. *)
Example Headers_setitem_replaces_any_case :
  httpx.Headers_setitem "Accept" accept_object
    [("accept", "text/plain"); ("Prefer", "count=exact"); ("ACCEPT", "*/*")]
  = [("Accept", accept_object); ("Prefer", "count=exact")]
  ∧ httpx.Headers_getitem "accept"
      (httpx.Headers_setitem "Accept" accept_object [("accept", "text/plain")])
    = Some accept_object.
Proof. split; reflexivity. Qed.

Lemma Headers_setitem_accept_set (hs : Headers) :
  accept_set hs (httpx.Headers_setitem "Accept" accept_object hs).
Proof.
  split.
  - apply (Headers_setitem_own "Accept").
  - apply (Headers_setitem_others "Accept").
Qed.

(** ** [single()] and [maybe_single()] *)

Lemma setitem_accept_switches (c : PyClass) (self : Builder) (w : World) (hs : Headers)
    (b : Builder) :
  store w !! headers self = Some hs →
  cls b = c → headers b = headers self →
  http_method b = http_method self → path b = path self →
  params b = params self → json b = json self → session b = session self →
  switches_to c (λ self', setitem (headers self') "Accept" accept_object;; mret b) self w hs.
Proof.
  intros Hhs Hc Hh Hm Hp Hq Hj Hs.
  exists b, {| store := alter (httpx.Headers_setitem "Accept" accept_object)
                          (headers self) (store w);
               sent := sent w |}.
  assert (Hnew : alter (httpx.Headers_setitem "Accept" accept_object) (headers self)
                   (store w) !! headers self
                 = Some (httpx.Headers_setitem "Accept" accept_object hs)).
  { by rewrite lookup_alter_eq, Hhs. }
  split; [done|]. do 4 (split; [done|]).
  split; [apply Headers_setitem_accept_set|].
  split; [|split; [|split; [|done]]].
  - intros alias name -> Hname. unfold deref; cbn. rewrite Hnew; cbn.
    by apply Headers_getitem_set.
  - intros name Hname. unfold deref; cbn. rewrite Hnew; cbn.
    by apply Headers_getitem_other.
  - intros l Hl. cbn. by apply lookup_alter_ne.
Qed.

(** C7.  On a select builder whose header map is in the store, [single()]
    and [maybe_single()] set the [Accept] header of that very map to
    "application/vnd.pgrst.object+json", in place and as [httpx.Headers]
    sets an item (an entry of that name in any case is replaced), so that
    every holder of the map reads the new value, and return a single-row,
    respectively maybe-single, executor that holds the same map and the
    method, path, params, json body and session of the builder; the headers
    of other names, the other maps and everything else stay as they are. *)
Theorem single_sets_accept_in_place (self : Builder) (w : World) (hs : Headers) :
  store w !! headers self = Some hs →
  switches_to cls_AsyncSingleRequestBuilder AsyncSelectRequestBuilder.single self w hs
  ∧ switches_to cls_AsyncMaybeSingleRequestBuilder
      AsyncSelectRequestBuilder.maybe_single self w hs.
Proof.
  intros Hhs. split.
  - by apply (setitem_accept_switches _ self w hs
                (AsyncSingleRequestBuilder.init (session self) (path self)
                   (http_method self) (headers self) (params self) (json self))).
  - by apply (setitem_accept_switches _ self w hs
                (AsyncMaybeSingleRequestBuilder.init (session self) (path self)
                   (http_method self) (headers self) (params self) (json self))).
Qed.

Lemma single_sets_accept_in_place_witness :
  switches_to cls_AsyncSingleRequestBuilder AsyncSelectRequestBuilder.single
    (Samples.select_builder (Samples.client (Samples.answer 200 (Samples.row 1 "Albania"))))
    Samples.world_with_accept [("accept", "text/plain"); ("Prefer", "count=exact")]
  ∧ switches_to cls_AsyncMaybeSingleRequestBuilder AsyncSelectRequestBuilder.maybe_single
      (Samples.select_builder (Samples.client (Samples.answer 200 (Samples.row 1 "Albania"))))
      Samples.world_with_accept [("accept", "text/plain"); ("Prefer", "count=exact")].
Proof.
  apply (single_sets_accept_in_place
           (Samples.select_builder
              (Samples.client (Samples.answer 200 (Samples.row 1 "Albania"))))
           Samples.world_with_accept [("accept", "text/plain"); ("Prefer", "count=exact")]).
  reflexivity.
Defined.

(** ** The five operations of the request builder *)

(** C8.  [select] wraps the result of [pre_select] in a select builder,
    [insert] and [upsert] wrap the results of [pre_insert] and [pre_upsert]
    in a plain query executor, which has no filter capability, and [update]
    and [delete] wrap the results of [pre_update] and [pre_delete] in a
    filter builder; a [returning] that the caller leaves out is
    [representation]. *)
Theorem request_builder_operations_wrap
    (pre_select : list string → option CountMethod → M descriptor)
    (pre_insert pre_upsert : JSON → option CountMethod → ReturnMethod → bool → M descriptor)
    (pre_update : JSON → option CountMethod → ReturnMethod → M descriptor)
    (pre_delete : option CountMethod → ReturnMethod → M descriptor)
    (self : AsyncRequestBuilder.t) (columns : list string) (json : JSON)
    (count : option CountMethod) (returning : option ReturnMethod)
    (upsert ignore_duplicates : option bool) :
  (wraps cls_AsyncSelectRequestBuilder self
     (pre_select columns count)
     (AsyncRequestBuilder.select pre_select self columns count)
   ∧ wraps cls_AsyncQueryRequestBuilder self
       (pre_insert json count (default representation returning) (default false upsert))
       (AsyncRequestBuilder.insert pre_insert self json count returning upsert)
   ∧ wraps cls_AsyncQueryRequestBuilder self
       (pre_upsert json count (default representation returning)
          (default false ignore_duplicates))
       (AsyncRequestBuilder.upsert pre_upsert self json count returning ignore_duplicates)
   ∧ wraps cls_AsyncFilterRequestBuilder self
       (pre_update json count (default representation returning))
       (AsyncRequestBuilder.update pre_update self json count returning)
   ∧ wraps cls_AsyncFilterRequestBuilder self
       (pre_delete count (default representation returning))
       (AsyncRequestBuilder.delete pre_delete self count returning))
  ∧ (AsyncRequestBuilder.insert pre_insert self json count None upsert
       = AsyncRequestBuilder.insert pre_insert self json count (Some representation) upsert
     ∧ AsyncRequestBuilder.upsert pre_upsert self json count None ignore_duplicates
       = AsyncRequestBuilder.upsert pre_upsert self json count (Some representation)
           ignore_duplicates
     ∧ AsyncRequestBuilder.update pre_update self json count None
       = AsyncRequestBuilder.update pre_update self json count (Some representation)
     ∧ AsyncRequestBuilder.delete pre_delete self count None
       = AsyncRequestBuilder.delete pre_delete self count (Some representation))
  ∧ (issubclass cls_AsyncQueryRequestBuilder cls_BaseFilterRequestBuilder = false
     ∧ issubclass cls_AsyncFilterRequestBuilder cls_BaseFilterRequestBuilder = true
     ∧ issubclass cls_AsyncSelectRequestBuilder cls_BaseFilterRequestBuilder = true).
Proof.
  split; [|split; [by repeat split | by repeat split]].
  unfold wraps, AsyncRequestBuilder.select, AsyncRequestBuilder.insert,
    AsyncRequestBuilder.upsert, AsyncRequestBuilder.update, AsyncRequestBuilder.delete.
  repeat split; intros w; unfold_monad; cbn.
  - by destruct (pre_select _ _ w) as [[[[[m p] h] j]|e] w'].
  - by destruct (pre_insert _ _ _ _ w) as [[[[[m p] h] j]|e] w'].
  - by destruct (pre_upsert _ _ _ _ w) as [[[[[m p] h] j]|e] w'].
  - by destruct (pre_update _ _ _ w) as [[[[[m p] h] j]|e] w'].
  - by destruct (pre_delete _ _ w) as [[[[[m p] h] j]|e] w'].
Qed.

(** * Further properties of the executors *)

(** ** Classification of the answer *)

(** X1.  The single-row [execute] treats an answer outside [200, 299] as
    the query executor does: with a body that is a JSON object it raises an
    [APIError] without cause whose fields are the values of the body. *)
Theorem single_execute_raises_error_body (ps : Response.t → result SingleAPIResponse.t)
    (self : Builder) (w : World) (r : Response.t) (entries : list (string * JSON)) :
  answer_of self w = Ok r →
  ¬ (200 ≤ Response.status_code r ≤ 299)%Z →
  Response.json r = Ok (JObj entries) →
  ∃ err,
    fst (AsyncSingleRequestBuilder.execute ps self w) = Raise (ExcAPIError err None)
    ∧ APIError.message err = dict_get "message" entries
    ∧ APIError.code err = dict_get "code" entries
    ∧ APIError.hint err = dict_get "hint" entries
    ∧ APIError.details err = dict_get "details" entries.
Proof.
  intros Hr Hstatus Hbody.
  rewrite (single_execute_answered _ _ _ _ Hr). cbn.
  unfold classified, raise_from_body. apply in_2xx_false in Hstatus as ->.
  rewrite Hbody. by eexists.
Qed.

Lemma single_execute_raises_error_body_witness :
  ∃ err,
    fst (AsyncSingleRequestBuilder.execute SingleAPIResponse.from_http_request_response
           (Samples.single_builder (Samples.client (Samples.answer 403 Samples.permission_error)))
           Samples.world) = Raise (ExcAPIError err None)
    ∧ APIError.message err = JStr "permission denied for table countries"
    ∧ APIError.code err = JStr "42501"
    ∧ APIError.hint err = JNull
    ∧ APIError.details err = JStr "role anon may not read countries".
Proof.
  exact (single_execute_raises_error_body SingleAPIResponse.from_http_request_response
           (Samples.single_builder (Samples.client (Samples.answer 403 Samples.permission_error)))
           Samples.world _ Samples.permission_entries
           eq_refl ltac:(cbn; lia) eq_refl).
Defined.

(** X2.  On an answer in [200, 299] both executors hand back what the
    response parser produced: its response when it returns one, and its
    exception, untouched, when it raises anything but a [ValidationError]. *)
Theorem execute_2xx_hands_back_parser_outcome (self : Builder) (w : World) (r : Response.t) :
  answer_of self w = Ok r →
  (200 ≤ Response.status_code r ≤ 299)%Z →
  (∀ p (outcome : result APIResponse.t),
     p r = outcome → (∀ v, outcome ≠ Raise (ExcValidationError v)) →
     fst (AsyncQueryRequestBuilder.execute p self w) = outcome)
  ∧ (∀ ps (outcome : result SingleAPIResponse.t),
       ps r = outcome → (∀ v, outcome ≠ Raise (ExcValidationError v)) →
       fst (AsyncSingleRequestBuilder.execute ps self w) = outcome).
Proof.
  intros Hr Hstatus. apply in_2xx_true in Hstatus.
  split; intros p outcome Hp Hnot.
  - rewrite (query_execute_answered _ _ _ _ Hr). cbn. unfold classified.
    rewrite Hstatus, Hp. destruct outcome as [a|[e c|v|x]]; try done.
    by destruct (Hnot v).
  - rewrite (single_execute_answered _ _ _ _ Hr). cbn. unfold classified.
    rewrite Hstatus, Hp. destruct outcome as [a|[e c|v|x]]; try done.
    by destruct (Hnot v).
Qed.

Lemma execute_2xx_hands_back_parser_outcome_witness :
  fst (AsyncSingleRequestBuilder.execute SingleAPIResponse.from_http_request_response
         (Samples.single_builder (Samples.client (Samples.answer 200 (Samples.row 1 "Albania"))))
         Samples.world)
  = Ok {| SingleAPIResponse.data := Samples.row 1 "Albania";
          SingleAPIResponse.error := JNull;
          SingleAPIResponse.count := None |}.
Proof.
  apply (proj2 (execute_2xx_hands_back_parser_outcome
                  (Samples.single_builder
                     (Samples.client (Samples.answer 200 (Samples.row 1 "Albania"))))
                  Samples.world _ eq_refl ltac:(cbn; lia))
               SingleAPIResponse.from_http_request_response _ eq_refl).
  intros v; discriminate.
Defined.

(** X3.  On an answer outside [200, 299] the response parser plays no part:
    whatever parsers the two executors are given, they raise one and the
    same exception. *)
Theorem execute_outside_2xx_ignores_parser
    (p : Response.t → result APIResponse.t) (ps : Response.t → result SingleAPIResponse.t)
    (self : Builder) (w : World) (r : Response.t) :
  answer_of self w = Ok r →
  ¬ (200 ≤ Response.status_code r ≤ 299)%Z →
  ∃ x,
    fst (AsyncQueryRequestBuilder.execute p self w) = Raise x
    ∧ fst (AsyncSingleRequestBuilder.execute ps self w) = Raise x
    ∧ (∀ body, Response.json r = Ok body → x = ExcAPIError (APIError.init body) None)
    ∧ (∀ y, Response.json r = Raise y → x = y).
Proof.
  intros Hr Hstatus. apply in_2xx_false in Hstatus.
  exists (raise_from_body r None).
  rewrite (query_execute_answered _ _ _ _ Hr), (single_execute_answered _ _ _ _ Hr).
  cbn. unfold classified. rewrite Hstatus.
  repeat split; unfold raise_from_body; by intros ? ->.
Qed.

Lemma execute_outside_2xx_ignores_parser_witness :
  fst (AsyncQueryRequestBuilder.execute APIResponse.from_http_request_response
         (Samples.query (Samples.client (Samples.answer_not_json 502))) Samples.world)
    = Raise (ExcOtherError "JSONDecodeError")
  ∧ fst (AsyncSingleRequestBuilder.execute Samples.row_with_id
           (Samples.query (Samples.client (Samples.answer_not_json 502))) Samples.world)
    = Raise (ExcOtherError "JSONDecodeError").
Proof.
  destruct (execute_outside_2xx_ignores_parser APIResponse.from_http_request_response
              Samples.row_with_id
              (Samples.query (Samples.client (Samples.answer_not_json 502))) Samples.world _
              eq_refl ltac:(cbn; lia)) as (x & Hq & Hs & _ & Hx).
  rewrite Hq, Hs. by rewrite (Hx _ eq_refl).
Defined.

(** X4.  When the transport raises instead of answering, the query and the
    single-row [execute] raise that very exception; the call has been made
    and is on record, and nothing else has changed. *)
Theorem execute_propagates_transport_failure
    (p : Response.t → result APIResponse.t) (ps : Response.t → result SingleAPIResponse.t)
    (self : Builder) (w : World) (x : exception) :
  answer_of self w = Raise x →
  AsyncQueryRequestBuilder.execute p self w
    = (Raise x, {| store := store w; sent := sent w ++ [call_of self w] |})
  ∧ AsyncSingleRequestBuilder.execute ps self w
    = (Raise x, {| store := store w; sent := sent w ++ [call_of self w] |}).
Proof.
  intros Hr. split.
  - by rewrite (query_execute_unanswered _ _ _ _ Hr).
  - by rewrite (single_execute_unanswered _ _ _ _ Hr).
Qed.

Lemma execute_propagates_transport_failure_witness :
  fst (AsyncQueryRequestBuilder.execute APIResponse.from_http_request_response
         (Samples.query Samples.failing_client) Samples.world)
    = Raise (ExcOtherError "ConnectError")
  ∧ fst (AsyncSingleRequestBuilder.execute SingleAPIResponse.from_http_request_response
           (Samples.query Samples.failing_client) Samples.world)
    = Raise (ExcOtherError "ConnectError").
Proof.
  pose proof (execute_propagates_transport_failure
                APIResponse.from_http_request_response
                SingleAPIResponse.from_http_request_response
                (Samples.query Samples.failing_client) Samples.world
                (ExcOtherError "ConnectError") eq_refl) as [Hq Hs].
  by rewrite Hq, Hs.
Defined.

(** ** The maybe-single executor, from the answer of the transport *)

(** X5.  The maybe-single [execute] catches [APIError] only: any other
    exception that the single-row [execute] raises (a transport failure, a
    body that is not JSON) leaves it unchanged. *)
Theorem maybe_single_execute_propagates_other_exceptions
    (ps : Response.t → result SingleAPIResponse.t)
    (fd : JSON → result SingleAPIResponse.t) (truthy : SingleAPIResponse.t → bool)
    (self : Builder) (w w' : World) (x : exception) :
  AsyncSingleRequestBuilder.execute ps self w = (Raise x, w') →
  is_APIError x = false →
  AsyncMaybeSingleRequestBuilder.execute ps fd truthy self w = (Raise x, w').
Proof.
  intros Hsingle Hx. rewrite maybe_single_execute_cases, Hsingle.
  by destruct x.
Qed.

Lemma maybe_single_execute_propagates_other_exceptions_witness :
  AsyncMaybeSingleRequestBuilder.execute SingleAPIResponse.from_http_request_response
    SingleAPIResponse.from_dict Samples.always_truthy
    (Samples.maybe_single_builder Samples.failing_client) Samples.world
  = (Raise (ExcOtherError "ConnectError"),
     after_call (Samples.maybe_single_builder Samples.failing_client) Samples.world).
Proof.
  exact (maybe_single_execute_propagates_other_exceptions
           SingleAPIResponse.from_http_request_response SingleAPIResponse.from_dict
           Samples.always_truthy (Samples.maybe_single_builder Samples.failing_client)
           Samples.world _ (ExcOtherError "ConnectError") eq_refl eq_refl).
Defined.

(** X6.  Provided the empty response can be built, the only [APIError] that
    ever leaves the maybe-single [execute] is the local "Missing response"
    error, without cause: the message, code, hint and details of an upstream
    error never reach the caller. *)
Theorem maybe_single_execute_raises_no_upstream_error
    (ps : Response.t → result SingleAPIResponse.t)
    (fd : JSON → result SingleAPIResponse.t) (truthy : SingleAPIResponse.t → bool)
    (self : Builder) (w : World) (empty : SingleAPIResponse.t)
    (e : APIError.t) (cause : option exception) :
  fd AsyncMaybeSingleRequestBuilder.zero_rows_dict = Ok empty →
  fst (AsyncMaybeSingleRequestBuilder.execute ps fd truthy self w)
    = Raise (ExcAPIError e cause) →
  e = AsyncMaybeSingleRequestBuilder.missing_response ∧ cause = None.
Proof.
  intros Hfd. rewrite maybe_single_execute_cases. cbn [fst]. unfold recovered.
  destruct (fst (AsyncSingleRequestBuilder.execute ps self w)) as [r|[e0 c0|v|x]].
  - destruct (truthy r); [discriminate | by intros [= <- <-]].
  - destruct (Py.and_contains (APIError.details e0) _) as [[|]|x] eqn:Htest.
    + rewrite Hfd. discriminate.
    + by intros [= <- <-].
    + unfold Py.and_contains, Py.contains in Htest.
      destruct (Py.truthy _), (APIError.details e0); congruence.
  - discriminate.
  - discriminate.
Qed.

Lemma maybe_single_execute_raises_no_upstream_error_witness :
  fst (AsyncMaybeSingleRequestBuilder.execute SingleAPIResponse.from_http_request_response
         SingleAPIResponse.from_dict Samples.always_truthy
         (Samples.maybe_single_builder
            (Samples.client (Samples.answer 403 Samples.permission_error)))
         Samples.world)
    = Raise (ExcAPIError AsyncMaybeSingleRequestBuilder.missing_response None)
  ∧ AsyncMaybeSingleRequestBuilder.missing_response
    = AsyncMaybeSingleRequestBuilder.missing_response
  ∧ @None exception = None.
Proof.
  split; [reflexivity|].
  exact (maybe_single_execute_raises_no_upstream_error
           SingleAPIResponse.from_http_request_response SingleAPIResponse.from_dict
           Samples.always_truthy
           (Samples.maybe_single_builder
              (Samples.client (Samples.answer 403 Samples.permission_error)))
           Samples.world _ _ _ eq_refl eq_refl).
Defined.

(** X7.  From the answer of the transport: when the status is outside
    [200, 299] and the body is a JSON object whose details are a string, the
    maybe-single [execute] returns the response built from the empty dict
    if that string has the form before ++ "Results contain 0 rows" ++ after,
    and raises the "Missing response" error if it has not.  Status, message
    and code of the answer make no difference. *)
Theorem maybe_single_execute_on_error_answer
    (ps : Response.t → result SingleAPIResponse.t)
    (fd : JSON → result SingleAPIResponse.t) (truthy : SingleAPIResponse.t → bool)
    (self : Builder) (w : World) (r : Response.t) (entries : list (string * JSON))
    (s : string) :
  answer_of self w = Ok r →
  ¬ (200 ≤ Response.status_code r ≤ 299)%Z →
  Response.json r = Ok (JObj entries) →
  dict_get "details" entries = JStr s →
  ((∃ before rest, s = before +:+ "Results contain 0 rows" +:+ rest) →
   fst (AsyncMaybeSingleRequestBuilder.execute ps fd truthy self w)
     = fd AsyncMaybeSingleRequestBuilder.zero_rows_dict)
  ∧ (¬ (∃ before rest, s = before +:+ "Results contain 0 rows" +:+ rest) →
     fst (AsyncMaybeSingleRequestBuilder.execute ps fd truthy self w)
       = Raise (ExcAPIError AsyncMaybeSingleRequestBuilder.missing_response None)).
Proof.
  intros Hr Hstatus Hbody Hdetails. apply in_2xx_false in Hstatus.
  rewrite maybe_single_execute_cases, (single_execute_answered _ _ _ _ Hr).
  cbn [fst snd]. unfold classified, raise_from_body. rewrite Hstatus, Hbody.
  cbn [recovered APIError.init APIError.details]. rewrite Hdetails.
  rewrite and_contains_str by done.
  split; intros Hin.
  - apply str_contains_spec in Hin as ->. by destruct (fd _).
  - destruct (Py.str_contains _ s) eqn:Hc; [|done].
    by apply str_contains_spec in Hc.
Qed.

Lemma maybe_single_execute_on_error_answer_witness :
  fst (AsyncMaybeSingleRequestBuilder.execute SingleAPIResponse.from_http_request_response
         SingleAPIResponse.from_dict Samples.always_truthy
         (Samples.maybe_single_builder
            (Samples.client (Samples.answer 406 Samples.zero_rows_error)))
         Samples.world)
  = Ok {| SingleAPIResponse.data := JNull; SingleAPIResponse.error := JNull;
          SingleAPIResponse.count := Some 0%Z |}.
Proof.
  apply (proj1 (maybe_single_execute_on_error_answer
                  SingleAPIResponse.from_http_request_response
                  SingleAPIResponse.from_dict Samples.always_truthy
                  (Samples.maybe_single_builder
                     (Samples.client (Samples.answer 406 Samples.zero_rows_error)))
                  Samples.world _
                  [("message", JStr "JSON object requested, multiple (or no) rows returned");
                   ("code", JStr "PGRST116");
                   ("details", JStr "Results contain 0 rows, application/vnd.pgrst.object+json requires 1 row");
                   ("hint", JNull)]
                  "Results contain 0 rows, application/vnd.pgrst.object+json requires 1 row"
                  eq_refl ltac:(cbn; lia) eq_refl eq_refl)).
  by exists "", ", application/vnd.pgrst.object+json requires 1 row".
Defined.

(** X8.  A parse failure does not survive the maybe-single executor.  When
    the status is in [200, 299], the body is JSON and the response model
    rejects it with a [ValidationError], the single-row [execute] raises an
    [APIError] chained from that failure, and the maybe-single [execute]
    catches it like any other: unless the zero-rows test holds of the body's
    details it raises the "Missing response" error, which has no cause. *)
Theorem maybe_single_execute_hides_parse_failure
    (ps : Response.t → result SingleAPIResponse.t)
    (fd : JSON → result SingleAPIResponse.t) (truthy : SingleAPIResponse.t → bool)
    (self : Builder) (w : World) (r : Response.t) (body : JSON) (v : string) :
  answer_of self w = Ok r →
  (200 ≤ Response.status_code r ≤ 299)%Z →
  Response.json r = Ok body →
  ps r = Raise (ExcValidationError v) →
  Py.and_contains (APIError.details (APIError.init body)) "Results contain 0 rows"
    = Ok false →
  fst (AsyncSingleRequestBuilder.execute ps self w)
    = Raise (ExcAPIError (APIError.init body) (Some (ExcValidationError v)))
  ∧ fst (AsyncMaybeSingleRequestBuilder.execute ps fd truthy self w)
    = Raise (ExcAPIError AsyncMaybeSingleRequestBuilder.missing_response None).
Proof.
  intros Hr Hstatus Hbody Hps Htest. apply in_2xx_true in Hstatus.
  rewrite maybe_single_execute_cases, (single_execute_answered _ _ _ _ Hr).
  cbn [fst snd]. unfold classified, raise_from_body. rewrite Hstatus, Hps, Hbody.
  cbn [recovered]. by rewrite Htest.
Qed.

Lemma maybe_single_execute_hides_parse_failure_witness :
  fst (AsyncSingleRequestBuilder.execute Samples.row_with_id
         (Samples.maybe_single_builder
            (Samples.client (Samples.answer 200 (JObj [("name", JStr "Albania")]))))
         Samples.world)
    = Raise (ExcAPIError (APIError.init (JObj [("name", JStr "Albania")]))
               (Some (ExcValidationError "id: field required")))
  ∧ fst (AsyncMaybeSingleRequestBuilder.execute Samples.row_with_id
           SingleAPIResponse.from_dict Samples.always_truthy
           (Samples.maybe_single_builder
              (Samples.client (Samples.answer 200 (JObj [("name", JStr "Albania")]))))
           Samples.world)
    = Raise (ExcAPIError AsyncMaybeSingleRequestBuilder.missing_response None).
Proof.
  exact (maybe_single_execute_hides_parse_failure Samples.row_with_id
           SingleAPIResponse.from_dict Samples.always_truthy
           (Samples.maybe_single_builder
              (Samples.client (Samples.answer 200 (JObj [("name", JStr "Albania")]))))
           Samples.world _ (JObj [("name", JStr "Albania")]) "id: field required"
           eq_refl ltac:(cbn; lia) eq_refl eq_refl eq_refl).
Defined.

(** ** [single()] and [maybe_single()], composed *)

Lemma alter_accept_twice (l : loc) (m : gmap loc Headers) :
  alter (httpx.Headers_setitem "Accept" accept_object) l
    (alter (httpx.Headers_setitem "Accept" accept_object) l m)
  = alter (httpx.Headers_setitem "Accept" accept_object) l m.
Proof.
  apply map_eq; intros l'. destruct (decide (l = l')) as [<-|Hne].
  - rewrite !lookup_alter_eq. destruct (m !! l); cbn; [|done].
    by rewrite Headers_setitem_again.
  - by rewrite !lookup_alter_ne.
Qed.

(** X9.  Switching to single-row mode twice changes nothing more than
    switching once: after [single()] or [maybe_single()], a further
    [single()] or [maybe_single()] on the same select builder leaves the
    world as it is, and all the executors returned hold one header map. *)
Theorem single_again_changes_nothing (self : Builder) (w : World) :
  let w1 := snd (AsyncSelectRequestBuilder.single self w) in
  snd (AsyncSelectRequestBuilder.maybe_single self w) = w1
  ∧ snd (AsyncSelectRequestBuilder.single self w1) = w1
  ∧ snd (AsyncSelectRequestBuilder.maybe_single self w1) = w1
  ∧ ∃ b1 b2,
      fst (AsyncSelectRequestBuilder.single self w) = Ok b1
      ∧ fst (AsyncSelectRequestBuilder.maybe_single self w1) = Ok b2
      ∧ headers b1 = headers b2.
Proof.
  cbn zeta. unfold AsyncSelectRequestBuilder.single, AsyncSelectRequestBuilder.maybe_single,
    setitem. unfold_monad. cbn.
  fold accept_object. rewrite alter_accept_twice.
  repeat split. by eexists _, _.
Qed.

(** X10.  After [single()] on a select builder whose header map held [hs],
    the request that [execute] of the returned executor sends has the
    builder's session, method, path, json body and params, and the headers
    [hs] with [Accept] set to the single-object media type, in place of any
    entry of that name.  Because the map is shared, [execute] on the select
    builder itself now sends the same headers. *)
Theorem single_then_execute_sends_accept
    (p : Response.t → result APIResponse.t) (ps : Response.t → result SingleAPIResponse.t)
    (self b : Builder) (w w1 : World) (hs : Headers) :
  store w !! headers self = Some hs →
  AsyncSelectRequestBuilder.single self w = (Ok b, w1) →
  let sent_headers :=
    httpx.Headers_setitem "Accept" "application/vnd.pgrst.object+json" hs in
  let sent_call :=
    {| call_session := client_id (session self);
       call_method := http_method self;
       call_path := path self;
       call_json := json self;
       call_params := params self;
       call_headers := sent_headers |} in
  accept_set hs sent_headers
  ∧ httpx.Headers_getitem "Accept" sent_headers = Some "application/vnd.pgrst.object+json"
  ∧ sent (snd (AsyncSingleRequestBuilder.execute ps b w1)) = sent w ++ [sent_call]
  ∧ sent (snd (AsyncQueryRequestBuilder.execute p self w1)) = sent w ++ [sent_call].
Proof.
  intros Hhs Hsingle. cbn zeta.
  split; [apply Headers_setitem_accept_set|].
  split; [by apply Headers_getitem_set|].
  rewrite single_execute_world, query_execute_world.
  unfold AsyncSelectRequestBuilder.single, setitem in Hsingle.
  unfold mbind, M_bind, mret, M_ret in Hsingle. cbn in Hsingle.
  injection Hsingle as <- <-.
  unfold after_call, call_of, deref; cbn.
  by rewrite lookup_alter_eq, Hhs.
Qed.

Lemma single_then_execute_sends_accept_witness :
  sent (snd (AsyncSingleRequestBuilder.execute SingleAPIResponse.from_http_request_response
               (Samples.single_builder
                  (Samples.client (Samples.answer 200 (Samples.row 1 "Albania"))))
               (snd (AsyncSelectRequestBuilder.single
                       (Samples.select_builder
                          (Samples.client (Samples.answer 200 (Samples.row 1 "Albania"))))
                       Samples.world_with_accept))))
  = [ {| call_session := 7%nat; call_method := "GET"; call_path := "/countries";
         call_json := JObj []; call_params := Samples.params_all;
         call_headers := [("Accept", "application/vnd.pgrst.object+json");
                          ("Prefer", "count=exact")] |} ].
Proof.
  exact (proj1 (proj2 (proj2 (single_then_execute_sends_accept
                  APIResponse.from_http_request_response
                  SingleAPIResponse.from_http_request_response
                  (Samples.select_builder
                     (Samples.client (Samples.answer 200 (Samples.row 1 "Albania"))))
                  _ Samples.world_with_accept _
                  [("accept", "text/plain"); ("Prefer", "count=exact")]
                  eq_refl eq_refl)))).
Defined.

(** X11.  From the request builder to the wire: when [pre_select] returns
    (method, params, headers, json) and the header map holds [hs], then
    [select(...)] followed by [single()] and [execute()] sends one request,
    to the path and through the session of the request builder, with that
    method, those params and that json body, and with the headers [hs] in
    which [Accept] has been set to the single-object media type. *)
Theorem select_single_execute_request
    (pre_select : list string → option CountMethod → M descriptor)
    (ps : Response.t → result SingleAPIResponse.t)
    (rb : AsyncRequestBuilder.t) (columns : list string) (count : option CountMethod)
    (w w0 : World) (method : string) (params : QueryParams) (h : loc) (body : JSON)
    (hs : Headers) :
  pre_select columns count w = (Ok (method, params, h, body), w0) →
  store w0 !! h = Some hs →
  ∃ select_builder executor w1 sent_headers,
    AsyncRequestBuilder.select pre_select rb columns count w = (Ok select_builder, w0)
    ∧ AsyncSelectRequestBuilder.single select_builder w0 = (Ok executor, w1)
    ∧ cls executor = cls_AsyncSingleRequestBuilder
    ∧ sent_headers = httpx.Headers_setitem "Accept" "application/vnd.pgrst.object+json" hs
    ∧ accept_set hs sent_headers
    ∧ sent (snd (AsyncSingleRequestBuilder.execute ps executor w1))
      = sent w0 ++
        [ {| call_session := client_id (AsyncRequestBuilder.session rb);
             call_method := method;
             call_path := AsyncRequestBuilder.path rb;
             call_json := body;
             call_params := params;
             call_headers := sent_headers |} ].
Proof.
  intros Hpre Hhs.
  eexists _, _, _, _. split; [|split; [|split; [|split; [reflexivity|split]]]].
  - unfold AsyncRequestBuilder.select. unfold mbind, M_bind. rewrite Hpre. reflexivity.
  - unfold AsyncSelectRequestBuilder.single, setitem. unfold_monad. reflexivity.
  - reflexivity.
  - apply Headers_setitem_accept_set.
  - rewrite single_execute_world. unfold after_call, call_of, deref; cbn.
    by rewrite lookup_alter_eq, Hhs.
Qed.

Lemma select_single_execute_request_witness :
  ∃ select_builder executor w1 sent_headers,
    AsyncRequestBuilder.select Samples.pre_select_sample
      {| AsyncRequestBuilder.session := Samples.failing_client;
         AsyncRequestBuilder.path := "/countries" |}
      ["id"; "name"] None Samples.world_with_accept
      = (Ok select_builder, Samples.world_with_accept)
    ∧ AsyncSelectRequestBuilder.single select_builder Samples.world_with_accept
      = (Ok executor, w1)
    ∧ cls executor = cls_AsyncSingleRequestBuilder
    ∧ sent_headers = [("Accept", "application/vnd.pgrst.object+json");
                      ("Prefer", "count=exact")]
    ∧ accept_set [("accept", "text/plain"); ("Prefer", "count=exact")] sent_headers
    ∧ sent (snd (AsyncSingleRequestBuilder.execute
                   SingleAPIResponse.from_http_request_response executor w1))
      = [ {| call_session := 7%nat; call_method := "GET"; call_path := "/countries";
             call_json := JObj []; call_params := [("select", "id,name")];
             call_headers := sent_headers |} ].
Proof.
  exact (select_single_execute_request Samples.pre_select_sample
           SingleAPIResponse.from_http_request_response
           {| AsyncRequestBuilder.session := Samples.failing_client;
              AsyncRequestBuilder.path := "/countries" |}
           ["id"; "name"] None Samples.world_with_accept Samples.world_with_accept
           "GET" [("select", "id,name")] 1%nat (JObj [])
           [("accept", "text/plain"); ("Prefer", "count=exact")]
           eq_refl eq_refl).
Defined.

(** X12.  [single()] and [maybe_single()] end the chain: the executor they
    return is neither a filter builder nor a query builder, so no filter
    method and no further [single()] is available on it, whereas a
    maybe-single executor is a single-row executor. *)
Theorem single_returns_terminal_executor (self : Builder) (w : World) :
  ∃ b1 b2,
    fst (AsyncSelectRequestBuilder.single self w) = Ok b1
    ∧ fst (AsyncSelectRequestBuilder.maybe_single self w) = Ok b2
    ∧ (∀ b, b = b1 ∨ b = b2 →
         issubclass (cls b) cls_BaseFilterRequestBuilder = false
         ∧ issubclass (cls b) cls_AsyncQueryRequestBuilder = false
         ∧ issubclass (cls b) cls_AsyncSelectRequestBuilder = false
         ∧ issubclass (cls b) cls_AsyncSingleRequestBuilder = true).
Proof.
  eexists _, _. split; [reflexivity|]. split; [reflexivity|].
  by intros b [-> | ->].
Qed.
